(** * ccmem: the project memory store

    A shallow embedding of the two MCP servers of the repository and of the
    schema they share:

    - [Schema]  the tables and the view of schema.sql;
    - [Bun]     the SQLite server, class CCMemServer of server-bun.js;
    - [Node]    the JSON-file server, class CCMemNodeServer of server-node.js;
    - [Cli]     the commands of cli.js, up to the request they send.

    Conventions of the model.

    - Text is a [string] of bytes.  On ASCII text a byte is a character and a
      UTF-16 code unit, and the JavaScript methods toLowerCase, toUpperCase
      and substring and the SQL function LOWER and operator LIKE act byte by
      byte, as written below.  A statement that depends on how one of them
      treats other text assumes that the text is ASCII ([Spec.ascii_text]).
    - A JavaScript number is an integer ([Z]).  A template literal prints the
      decimal digits of a safe integer ([Js.safe_integer]); a statement that
      depends on the text of a number assumes that it is one.
    - An argument bag holds the properties the tool's inputSchema declares,
      with the declared type; a property that is absent from the bag is
      JavaScript's undefined.  A request may leave out the bag itself, or
      the params ([Js.passed]).
    - A timestamp is the clock reading it was taken from: seconds for SQLite's
      CURRENT_TIMESTAMP, milliseconds for Date.now() and new Date().  The
      clock is an input of every operation.
    - A table is the list of its rows in rowid order.  Foreign keys are
      declared but not enforced (the server never turns PRAGMA foreign_keys
      on).  ORDER BY is a stable sort of the rowid-ordered scan; SQL leaves
      the order of ties open.
    - A thrown JavaScript Error is the outcome [Thrown] with its message.  The
      message of a TypeError that the engine raises on destructuring undefined
      or null is the engine's to choose: it is an input, as the clock is.
    - Not modelled: storage failures (disk, permissions, a corrupt file), and
      rowids above 2^63 - 1. *)

From Stdlib Require Import ZArith String Ascii DecimalString.
From Stdlib Require OrderedTypeEx.
From stdpp Require Import base option list gmap strings sorting.

Local Open Scope Z_scope.

(** ** JavaScript values and argument bags *)

Module Js.

(** The [arguments] of a tool call, typed by the inputSchema. *)
Record bag := Bag {
  str_props : gmap string string;
  num_props : gmap string Z
}.

Definition str (args : bag) (name : string) : option string :=
  str_props args !! name.

Definition num (args : bag) (name : string) : option Z :=
  num_props args !! name.

Definition quote : string := String "034"%char EmptyString.
Definition newline : string := String "010"%char EmptyString.


(** Number to text, as a template literal prints a safe integer: its decimal
    digits. *)
Definition show (n : Z) : string := NilZero.string_of_int (Z.to_int n).

(** [${x}] for a string property that may be undefined. *)
Definition interp (x : option string) : string := default "undefined" x.

(** [x || null] on a string: undefined and the empty string are falsy. *)
Definition or_null (x : option string) : option string :=
  match x with
  | Some EmptyString => None
  | _ => x
  end.

(** [x || null] on a number: undefined and 0 are falsy. *)
Definition num_or_null (x : option Z) : option Z :=
  match x with
  | Some 0 => None
  | _ => x
  end.

(** [x || d] on a string and on a number. *)
Definition or_default (x : option string) (d : string) : string :=
  default d (or_null x).

Definition num_or_default (x : option Z) (d : Z) : Z :=
  default d (num_or_null x).

Definition lower_char (c : ascii) : ascii :=
  let n := nat_of_ascii c in
  if (Nat.leb 65 n && Nat.leb n 90)%bool then ascii_of_nat (n + 32) else c.

Definition upper_char (c : ascii) : ascii :=
  let n := nat_of_ascii c in
  if (Nat.leb 97 n && Nat.leb n 122)%bool then ascii_of_nat (n - 32) else c.

Fixpoint map_chars (f : ascii → ascii) (s : string) : string :=
  match s with
  | EmptyString => EmptyString
  | String c s' => String (f c) (map_chars f s')
  end.

(** toLowerCase and toUpperCase, as they act on ASCII text: the letters A-Z
    and a-z change case.  JavaScript changes the case of other letters too;
    a statement that depends on it assumes the text is ASCII. *)
Definition toLowerCase : string → string := map_chars lower_char.
Definition toUpperCase : string → string := map_chars upper_char.

(** [lines.join(sep)] *)
Definition join (sep : string) (lines : list string) : string :=
  String.concat sep lines.

(** What a handler does: it returns the text of its single content item, or
    it throws. *)
Inductive outcome :=
| Returned (text : string)
| Thrown (message : string).

(** ** JSON values and the JSON-RPC envelope *)

(** What JSON.stringify writes and JSON.parse reads. *)
#[local] Unset Elimination Schemes.
Inductive json :=
| JNull
| JNum (n : Z)
| JStr (s : string)
| JArr (items : list json)
| JObj (props : list (string * json)).
#[local] Set Elimination Schemes.

(** [o.key] on a JSON value: the property of an object, undefined otherwise. *)
Definition get (key : string) (o : json) : option json :=
  match o with
  | JObj props => snd <$> head (filter (λ p, p.1 = key) props)
  | _ => None
  end.

Definition items_of (o : option json) : list json :=
  match o with
  | Some (JArr items) => items
  | _ => []
  end.

Definition text_of (o : option json) : option string :=
  match o with
  | Some (JStr s) => Some s
  | _ => None
  end.

(** The names of the tools a list_tools result lists. *)
Definition tool_names (listed : json) : list string :=
  omap (λ tool, text_of (get "name" tool)) (items_of (get "tools" listed)).

(** The properties the inputSchema of the tool [name] lists as required. *)
Definition required_of (listed : json) (name : string) : list string :=
  match filter (λ tool, text_of (get "name" tool) = Some name)
               (items_of (get "tools" listed)) with
  | tool :: _ =>
      omap (λ x, text_of (Some x)) (items_of (inputSchema ← get "inputSchema" tool;
                                              get "required" inputSchema))
  | [] => []
  end.

(** What a request may give for an object it is to carry: nothing (the
    property is absent, undefined), null, or the object. *)
Inductive passed (A : Type) :=
| Undefined
| Null
| Given (a : A).
Arguments Undefined {A}.
Arguments Null {A}.
Arguments Given {A} a.

(** A request as setupMCPHandlers parses it: { id, method, params }, with
    params = { name, arguments }.  The id may be absent ([None] is
    undefined); the method and the name are strings.  Only call_tool reads
    the params. *)
Module rpc.
Record params := Params {
  name : string;
  arguments : passed bag
}.
Record request := Request {
  id : option json;
  method : string;
  call : passed params
}.
End rpc.

(** What a server writes: console.log or console.error of the JSON text of a
    message. *)
Inductive output :=
| Log (message : json)
| LogError (message : json).

(** The result object of a tool: { content: [{ type: "text", text }] }. *)
Definition content (text : string) : json :=
  JObj [("content", JArr [JObj [("type", JStr "text"); ("text", JStr text)]])].

End Js.

(** ** The SQLite engine, as far as the statements of the server use it *)

Module Sqlite.

Inductive result (A : Type) :=
| Ok (a : A)
| Err (msg : string).
Arguments Ok {A} a.
Arguments Err {A} msg.

#[global] Instance result_ret : MRet result := λ A a, Ok a.
#[global] Instance result_bind : MBind result :=
  λ A B f m, match m with Ok a => f a | Err e => Err e end.

(** A NULL bound to a NOT NULL column without default aborts the statement. *)
Definition not_null {A} (table column : string) (v : option A) : result A :=
  match v with
  | Some a => Ok a
  | None => Err ("NOT NULL constraint failed: " +:+ table +:+ "." +:+ column)
  end.

(** INTEGER PRIMARY KEY AUTOINCREMENT: one more than the largest rowid the
    table ever held, which sqlite_sequence records. *)
Definition max_rowid (ids : list Z) : Z := foldr Z.max 0 ids.

Definition next_rowid (seq : gmap string Z) (table : string) (ids : list Z) : Z :=
  Z.max (default 0 (seq !! table)) (max_rowid ids) + 1.

(** LOWER(x): ASCII letters only. *)
Definition LOWER : string → string := Js.map_chars Js.lower_char.

(** [s LIKE p]: the percent sign matches any run of characters, the underscore
    any one character, every other character itself up to ASCII case.  The
    statements of the server give no ESCAPE clause. *)
Fixpoint like (p s : string) {struct p} : bool :=
  match p with
  | EmptyString => bool_decide (s = EmptyString)
  | String c p' =>
      if Ascii.eqb c "%"%char then
        (fix any_run (s : string) : bool :=
           like p' s ||
           match s with
           | EmptyString => false
           | String _ s' => any_run s'
           end) s
      else
        match s with
        | EmptyString => false
        | String d s' =>
            (Ascii.eqb c "_"%char || Ascii.eqb (Js.lower_char c) (Js.lower_char d))
            && like p' s'
        end
  end.

(** SQLITE_MAX_LIKE_PATTERN_LENGTH.  LIKE, when it is evaluated on a row,
    refuses a pattern of more bytes: the statement fails with the message
    below. *)
Definition max_like_pattern_length : Z := 50000.

Definition too_complex (p : string) : bool :=
  max_like_pattern_length <? Z.of_nat (String.length p).

Definition pattern_too_complex : string := "LIKE or GLOB pattern too complex".

(** ORDER BY: stable insertion sort under a boolean "comes no later than". *)
Section order_by.
Context {A : Type} (le : A → A → bool).

Fixpoint place (x : A) (l : list A) : list A :=
  match l with
  | [] => [x]
  | y :: l' => if le x y then x :: y :: l' else y :: place x l'
  end.

Fixpoint order_by (l : list A) : list A :=
  match l with
  | [] => []
  | x :: l' => place x (order_by l')
  end.

End order_by.

(** LIMIT n *)
Definition limit {A} (n : nat) (l : list A) : list A := take n l.

(** BINARY collation on text. *)
Definition text_le (a b : string) : bool :=
  match String.compare a b with
  | Gt => false
  | _ => true
  end.

Definition text_lt (a b : string) : bool :=
  match String.compare a b with
  | Lt => true
  | _ => false
  end.

End Sqlite.

(** ** The schema (schema.sql) *)

Module Schema.

Module settings.
Record row := Row {
  id : Z;
  category : string;
  key_name : string;
  value : string;
  description : option string;
  created_at : Z;
  updated_at : Z
}.
End settings.

Module architecture.
Record row := Row {
  id : Z;
  component : string;
  description : string;
  tech_stack : string;
  file_paths : option string;
  patterns : option string;
  created_at : Z;
  updated_at : Z
}.
End architecture.

Module deployment.
Record row := Row {
  id : Z;
  environment : string;
  target_host : option string;
  deployment_steps : string;
  test_verification : option string;
  rollback_steps : option string;
  last_deployed_at : option Z;
  created_at : Z;
  updated_at : Z
}.
End deployment.

Module story.
Record row := Row {
  id : Z;
  title : string;
  description : string;
  status : string;
  priority : Z;
  files_affected : option string;
  created_at : Z;
  updated_at : Z;
  completed_at : option Z
}.
End story.

Module task.
Record row := Row {
  id : Z;
  story_id : option Z;
  title : string;
  description : string;
  status : string;
  files_affected : option string;
  implementation_notes : option string;
  created_at : Z;
  updated_at : Z;
  completed_at : option Z
}.
End task.

Module defect.
Record row := Row {
  id : Z;
  story_id : option Z;
  task_id : option Z;
  title : string;
  description : string;
  severity : string;
  status : string;
  files_affected : option string;
  fix_description : option string;
  created_at : Z;
  resolved_at : option Z
}.
End defect.

Module lessons.
Record row := Row {
  id : Z;
  title : string;
  description : string;
  category : string;
  impact_level : string;
  related_files : option string;
  tags : option string;
  created_at : Z
}.
End lessons.

Module knowledge.
Record row := Row {
  id : Z;
  title : string;
  content : string;
  category : string;
  tags : option string;
  created_at : Z;
  updated_at : Z
}.
End knowledge.

(** One database file: the eight tables and sqlite_sequence. *)
Record db := Db {
  settings : list settings.row;
  architecture : list architecture.row;
  deployment : list deployment.row;
  story : list story.row;
  task : list task.row;
  defect : list defect.row;
  lessons : list lessons.row;
  knowledge : list knowledge.row;
  sqlite_sequence : gmap string Z
}.

(** The file right after [db.exec(schema)] on a fresh path. *)
Definition fresh : db := Db [] [] [] [] [] [] [] [] ∅.

(** The tables, for statements that speak of all of them. *)
Inductive table :=
| Settings | Architecture | Deployment | Story | Task | Defect | Lessons
| Knowledge.

#[global] Instance table_eq_dec : EqDecision table.
Proof. solve_decision. Defined.

Definition name (t : table) : string :=
  match t with
  | Settings => "settings"
  | Architecture => "architecture"
  | Deployment => "deployment"
  | Story => "story"
  | Task => "task"
  | Defect => "defect"
  | Lessons => "lessons"
  | Knowledge => "knowledge"
  end.

Definition rowids (t : table) (st : db) : list Z :=
  match t with
  | Settings => settings.id <$> settings st
  | Architecture => architecture.id <$> architecture st
  | Deployment => deployment.id <$> deployment st
  | Story => story.id <$> story st
  | Task => task.id <$> task st
  | Defect => defect.id <$> defect st
  | Lessons => lessons.id <$> lessons st
  | Knowledge => knowledge.id <$> knowledge st
  end.

(** The largest rowid [t] ever held, as sqlite_sequence has it. *)
Definition seq (t : table) (st : db) : Z :=
  default 0 (sqlite_sequence st !! name t).

(** CREATE VIEW project_status *)
Record project_status_row := Status {
  active_stories : nat;
  pending_tasks : nat;
  open_defects : nat;
  lessons_count : nat;
  start_command : option string;
  test_command : option string
}.

Definition setting_value (category key : string) (st : db) : option string :=
  settings.value <$>
    head (filter (λ s, settings.category s = category ∧ settings.key_name s = key)
                 (settings st)).

Definition project_status (st : db) : project_status_row :=
  {| active_stories := length (filter (λ s, story.status s = "active") (story st));
     pending_tasks :=
       length (filter (λ t, task.status t = "todo" ∨ task.status t = "in_progress")
                      (task st));
     open_defects := length (filter (λ d, defect.status d = "open") (defect st));
     lessons_count := length (lessons st);
     start_command := setting_value "start" "command" st;
     test_command := setting_value "test" "command" st |}.

End Schema.

(** ** The SQLite server (class CCMemServer) *)

Module Bun.
Import Js Sqlite Schema.

(** *** Writing a table and its sqlite_sequence entry *)

Definition bump (t : table) (rowid : Z) (st : db) : gmap string Z :=
  <[name t := rowid]> (sqlite_sequence st).

Definition put_settings (rows : list settings.row) (rowid : Z) (st : db) : db :=
  Db rows (architecture st) (deployment st) (story st) (task st) (defect st)
     (lessons st) (knowledge st) (bump Settings rowid st).

Definition put_architecture (rows : list architecture.row) (rowid : Z) (st : db) : db :=
  Db (settings st) rows (deployment st) (story st) (task st) (defect st)
     (lessons st) (knowledge st) (bump Architecture rowid st).

Definition put_deployment (rows : list deployment.row) (rowid : Z) (st : db) : db :=
  Db (settings st) (architecture st) rows (story st) (task st) (defect st)
     (lessons st) (knowledge st) (bump Deployment rowid st).

Definition put_story (rows : list story.row) (rowid : Z) (st : db) : db :=
  Db (settings st) (architecture st) (deployment st) rows (task st) (defect st)
     (lessons st) (knowledge st) (bump Story rowid st).

Definition put_task (rows : list task.row) (rowid : Z) (st : db) : db :=
  Db (settings st) (architecture st) (deployment st) (story st) rows (defect st)
     (lessons st) (knowledge st) (bump Task rowid st).

Definition put_defect (rows : list defect.row) (rowid : Z) (st : db) : db :=
  Db (settings st) (architecture st) (deployment st) (story st) (task st) rows
     (lessons st) (knowledge st) (bump Defect rowid st).

Definition put_lessons (rows : list lessons.row) (rowid : Z) (st : db) : db :=
  Db (settings st) (architecture st) (deployment st) (story st) (task st)
     (defect st) rows (knowledge st) (bump Lessons rowid st).

Definition put_knowledge (rows : list knowledge.row) (rowid : Z) (st : db) : db :=
  Db (settings st) (architecture st) (deployment st) (story st) (task st)
     (defect st) (lessons st) rows (bump Knowledge rowid st).

Definition new_rowid (t : table) (st : db) : Z :=
  next_rowid (sqlite_sequence st) (name t) (rowids t st).

(** *** The statements.  Each returns the database and lastInsertRowid. *)

(** INSERT OR REPLACE INTO settings (category, key_name, value, description,
    updated_at) VALUES (?1, ?2, ?3, ?4, CURRENT_TIMESTAMP).
    UNIQUE(category, key_name) makes REPLACE delete the row that has the key;
    the new row takes a new rowid and the defaults of the columns left out. *)
Definition replace_settings (now : Z) (category key_name value description : option string)
    (st : db) : result (db * Z) :=
  category ← not_null "settings" "category" category;
  key_name ← not_null "settings" "key_name" key_name;
  value ← not_null "settings" "value" value;
  let rowid := new_rowid Settings st in
  let kept :=
    filter (λ s, ¬ (settings.category s = category ∧ settings.key_name s = key_name))
           (settings st) in
  mret (put_settings
          (kept ++ [settings.Row rowid category key_name value description now now])
          rowid st, rowid).

(** INSERT OR REPLACE INTO architecture (...).  The table has no UNIQUE
    constraint besides its rowid, which the statement does not give: nothing
    conflicts and the row is added. *)
Definition replace_architecture (now : Z)
    (component description tech_stack file_paths patterns : option string)
    (st : db) : result (db * Z) :=
  component ← not_null "architecture" "component" component;
  description ← not_null "architecture" "description" description;
  tech_stack ← not_null "architecture" "tech_stack" tech_stack;
  let rowid := new_rowid Architecture st in
  mret (put_architecture
          (architecture st ++
           [architecture.Row rowid component description tech_stack file_paths
                             patterns now now])
          rowid st, rowid).

(** INSERT OR REPLACE INTO deployment (...): no UNIQUE constraint either. *)
Definition replace_deployment (now : Z)
    (environment target_host deployment_steps test_verification rollback_steps :
       option string)
    (st : db) : result (db * Z) :=
  environment ← not_null "deployment" "environment" environment;
  deployment_steps ← not_null "deployment" "deployment_steps" deployment_steps;
  let rowid := new_rowid Deployment st in
  mret (put_deployment
          (deployment st ++
           [deployment.Row rowid environment target_host deployment_steps
                           test_verification rollback_steps None now now])
          rowid st, rowid).

(** INSERT INTO story (title, description, priority, files_affected) *)
Definition insert_story (now : Z) (title description : option string) (priority : Z)
    (files_affected : option string) (st : db) : result (db * Z) :=
  title ← not_null "story" "title" title;
  description ← not_null "story" "description" description;
  let rowid := new_rowid Story st in
  mret (put_story
          (story st ++
           [story.Row rowid title description "active" priority files_affected
                      now now None])
          rowid st, rowid).

(** INSERT INTO task (story_id, title, description, files_affected,
    implementation_notes).  FOREIGN KEY (story_id) is not enforced. *)
Definition insert_task (now : Z) (story_id : option Z) (title description : option string)
    (files_affected implementation_notes : option string) (st : db) : result (db * Z) :=
  title ← not_null "task" "title" title;
  description ← not_null "task" "description" description;
  let rowid := new_rowid Task st in
  mret (put_task
          (task st ++
           [task.Row rowid story_id title description "todo" files_affected
                     implementation_notes now now None])
          rowid st, rowid).

(** INSERT INTO defect (title, description, severity, files_affected, story_id,
    task_id) *)
Definition insert_defect (now : Z) (title description : option string) (severity : string)
    (files_affected : option string) (story_id task_id : option Z) (st : db) :
    result (db * Z) :=
  title ← not_null "defect" "title" title;
  description ← not_null "defect" "description" description;
  let rowid := new_rowid Defect st in
  mret (put_defect
          (defect st ++
           [defect.Row rowid story_id task_id title description severity "open"
                       files_affected None now None])
          rowid st, rowid).

(** INSERT INTO lessons (title, description, category, impact_level,
    related_files, tags) *)
Definition insert_lessons (now : Z) (title description category : option string)
    (impact_level : string) (related_files tags : option string) (st : db) :
    result (db * Z) :=
  title ← not_null "lessons" "title" title;
  description ← not_null "lessons" "description" description;
  category ← not_null "lessons" "category" category;
  let rowid := new_rowid Lessons st in
  mret (put_lessons
          (lessons st ++
           [lessons.Row rowid title description category impact_level
                        related_files tags now])
          rowid st, rowid).

(** INSERT INTO knowledge (title, content, category, tags) *)
Definition insert_knowledge (now : Z) (title content : option string) (category : string)
    (tags : option string) (st : db) : result (db * Z) :=
  title ← not_null "knowledge" "title" title;
  content ← not_null "knowledge" "content" content;
  let rowid := new_rowid Knowledge st in
  mret (put_knowledge
          (knowledge st ++
           [knowledge.Row rowid title content category tags now now])
          rowid st, rowid).

(** [stmt.run(...)] followed by the handler's return: a failed statement throws
    before the text is built and leaves the database as it was. *)
Definition run (st : db) (r : result (db * Z)) (text : Z → string) : db * outcome :=
  match r with
  | Ok (st', lastInsertRowid) => (st', Returned (text lastInsertRowid))
  | Err msg => (st, Thrown msg)
  end.

(** *** The write handlers *)

Definition learnSetting (now : Z) (args : bag) (st : db) : db * outcome :=
  let category := str args "category" in
  let key := str args "key" in
  let value := str args "value" in
  let description := str args "description" in
  run st (replace_settings now category key value (or_null description) st)
    (λ _, "✅ Learned setting: " +:+ interp category +:+ "." +:+ interp key +:+
          " = " +:+ quote +:+ interp value +:+ quote +:+ newline +:+ newline +:+
          "I'll remember this project configuration for future development assistance.").

Definition learnArchitecture (now : Z) (args : bag) (st : db) : db * outcome :=
  let component := str args "component" in
  let description := str args "description" in
  let tech_stack := str args "tech_stack" in
  let file_paths := str args "file_paths" in
  let patterns := str args "patterns" in
  run st (replace_architecture now component description tech_stack
            (or_null file_paths) (or_null patterns) st)
    (λ _, "🏗️ Learned architecture: " +:+ interp component +:+ newline +:+ newline +:+
          "Tech stack: " +:+ interp tech_stack +:+ newline +:+ newline +:+
          "I'll use this knowledge for future architectural decisions and code analysis.").

Definition learnDeployment (now : Z) (args : bag) (st : db) : db * outcome :=
  let environment := str args "environment" in
  let target_host := str args "target_host" in
  let deployment_steps := str args "deployment_steps" in
  let test_verification := str args "test_verification" in
  let rollback_steps := str args "rollback_steps" in
  run st (replace_deployment now environment (or_null target_host) deployment_steps
            (or_null test_verification) (or_null rollback_steps) st)
    (λ _, "🚀 Learned deployment for " +:+ interp environment +:+ newline +:+ newline +:+
          "I'll remember these deployment procedures for future releases.").

Definition createStory (now : Z) (args : bag) (st : db) : db * outcome :=
  let title := str args "title" in
  let description := str args "description" in
  let priority := num args "priority" in
  let files_affected := str args "files_affected" in
  run st (insert_story now title description (num_or_default priority 3)
            (or_null files_affected) st)
    (λ lastInsertRowid,
       "📖 Created story #" +:+ show lastInsertRowid +:+ ": " +:+ interp title +:+
       newline +:+ newline +:+
       "This replaces traditional GitHub PRs with intelligent project memory.").

Definition createTask (now : Z) (args : bag) (st : db) : db * outcome :=
  let story_id := num args "story_id" in
  let title := str args "title" in
  let description := str args "description" in
  let files_affected := str args "files_affected" in
  let implementation_notes := str args "implementation_notes" in
  run st (insert_task now (num_or_null story_id) title description
            (or_null files_affected) (or_null implementation_notes) st)
    (λ lastInsertRowid,
       "✅ Created task #" +:+ show lastInsertRowid +:+ ": " +:+ interp title +:+
       newline +:+ newline +:+
       match num_or_null story_id with
       | Some n => "Linked to story #" +:+ show n
       | None => "Standalone task"
       end).

Definition logDefect (now : Z) (args : bag) (st : db) : db * outcome :=
  let title := str args "title" in
  let description := str args "description" in
  let severity := str args "severity" in
  let files_affected := str args "files_affected" in
  let story_id := num args "story_id" in
  let task_id := num args "task_id" in
  run st (insert_defect now title description (or_default severity "medium")
            (or_null files_affected) (num_or_null story_id) (num_or_null task_id) st)
    (λ lastInsertRowid,
       "🐛 Logged defect #" +:+ show lastInsertRowid +:+ ": " +:+ interp title +:+
       newline +:+ newline +:+ "Severity: " +:+ or_default severity "medium").

Definition recordLesson (now : Z) (args : bag) (st : db) : db * outcome :=
  let title := str args "title" in
  let description := str args "description" in
  let category := str args "category" in
  let impact_level := str args "impact_level" in
  let related_files := str args "related_files" in
  let tags := str args "tags" in
  run st (insert_lessons now title description category
            (or_default impact_level "medium") (or_null related_files) (or_null tags) st)
    (λ _, "🧠 Recorded lesson: " +:+ interp title +:+ newline +:+ newline +:+
          "Category: " +:+ interp category +:+ newline +:+
          "Impact: " +:+ or_default impact_level "medium" +:+ newline +:+ newline +:+
          "This wisdom will guide future development decisions.").

Definition addKnowledge (now : Z) (args : bag) (st : db) : db * outcome :=
  let title := str args "title" in
  let content := str args "content" in
  let category := str args "category" in
  let tags := str args "tags" in
  run st (insert_knowledge now title content (or_default category "general")
            (or_null tags) st)
    (λ _, "📚 Added knowledge: " +:+ interp title +:+ newline +:+ newline +:+
          "This information is now part of my project memory.").

(** *** getContext *)

(** [${n || 0}] for a count *)
Definition count (n : nat) : string := show (Z.of_nat n).

Definition status_summary (st : db) : list string :=
  let status := project_status st in
  [ "## 🎯 Project Status";
    "- Active Stories: " +:+ count (active_stories status);
    "- Pending Tasks: " +:+ count (pending_tasks status);
    "- Open Defects: " +:+ count (open_defects status);
    "- Lessons Learned: " +:+ count (lessons_count status) ] ++
  match or_null (start_command status) with
  | Some c => [ "- Start Command: `" +:+ c +:+ "`" ]
  | None => []
  end ++
  match or_null (test_command status) with
  | Some c => [ "- Test Command: `" +:+ c +:+ "`" ]
  | None => []
  end.

(** A heading and its lines, or nothing when there are no rows. *)
Definition section {A} (heading : string) (rows : list A) (render : A → list string) :
    list string :=
  match rows with
  | [] => []
  | _ => heading :: (rows ≫= render)
  end.

(** SELECT * FROM settings ORDER BY category, key_name *)
Definition settings_by_key (a b : settings.row) : bool :=
  text_lt (settings.category a) (settings.category b) ||
  (bool_decide (settings.category a = settings.category b) &&
   text_le (settings.key_name a) (settings.key_name b)).

Definition settings_section (st : db) : list string :=
  section "\n## ⚙️ Key Settings" (order_by settings_by_key (settings st))
    (λ s, [ "- " +:+ settings.category s +:+ "." +:+ settings.key_name s +:+ ": `" +:+
            settings.value s +:+ "`" ]).

(** SELECT * FROM architecture ORDER BY component *)
Definition architecture_section (st : db) : list string :=
  section "\n## 🏗️ Architecture"
    (order_by (λ a b, text_le (architecture.component a) (architecture.component b))
              (architecture st))
    (λ a, [ "- **" +:+ architecture.component a +:+ "**: " +:+ architecture.description a;
            "  - Tech: " +:+ architecture.tech_stack a ]).

(** SELECT * FROM story WHERE status = 'active'
    ORDER BY priority, created_at DESC LIMIT 3 *)
Definition story_by_priority (a b : story.row) : bool :=
  (story.priority a <? story.priority b) ||
  ((story.priority a =? story.priority b) && (story.created_at b <=? story.created_at a)).

Definition activeStories (st : db) : list story.row :=
  limit 3 (order_by story_by_priority
             (filter (λ s, story.status s = "active") (story st))).

(** SELECT * FROM task WHERE status IN ('todo', 'in_progress')
    ORDER BY created_at DESC LIMIT 5 *)
Definition pendingTasks (st : db) : list task.row :=
  limit 5 (order_by (λ a b, task.created_at b <=? task.created_at a)
             (filter (λ t, task.status t = "todo" ∨ task.status t = "in_progress")
                     (task st))).

Definition current_work_section (st : db) : list string :=
  section "\n## 📖 Active Stories" (activeStories st)
    (λ s, [ "- **Story #" +:+ show (story.id s) +:+ "**: " +:+ story.title s ]) ++
  section "\n## ✅ Pending Tasks" (pendingTasks st)
    (λ t, [ "- **Task #" +:+ show (task.id t) +:+ "**: " +:+ task.title t +:+ " (" +:+
            task.status t +:+ ")" ]).

(** SELECT * FROM lessons ORDER BY created_at DESC LIMIT 3 *)
Definition recentLessons (st : db) : list lessons.row :=
  limit 3 (order_by (λ a b, lessons.created_at b <=? lessons.created_at a) (lessons st)).

(** [substring(0, 100)], as in result_lines below: characters, on an ASCII
    description. *)
Definition lesson_line (l : lessons.row) : string :=
  "- **" +:+ lessons.title l +:+ "** (" +:+ lessons.category l +:+ "): " +:+
  substring 0 100 (lessons.description l) +:+ "...".

Definition recent_lessons_section (st : db) : list string :=
  section "\n## 🧠 Recent Lessons" (recentLessons st) (λ l, [ lesson_line l ]).

Definition when (b : bool) (lines : list string) : list string :=
  if b then lines else [].

(** The array [context] that getContext fills. *)
Definition context (focus : string) (st : db) : list string :=
  status_summary st ++
  when (bool_decide (focus = "all") || bool_decide (focus = "settings"))
       (settings_section st) ++
  when (bool_decide (focus = "all") || bool_decide (focus = "architecture"))
       (architecture_section st) ++
  when (bool_decide (focus = "all") || bool_decide (focus = "current"))
       (current_work_section st) ++
  when (bool_decide (focus = "all") || bool_decide (focus = "recent"))
       (recent_lessons_section st).

Definition getContext (args : bag) (st : db) : outcome :=
  let focus := default "all" (str args "focus") in
  Returned (join "\n" (context focus st)).

(** *** search *)

(** A row of the four SELECTs: 'story' as type, id, title, description (content
    for knowledge), created_at. *)
Module hit.
Record row := Row {
  type : string;
  id : Z;
  title : string;
  description : string;
  created_at : Z
}.
End hit.

(** WHERE LOWER(title) LIKE ?1 OR LOWER(description) LIKE ?1 *)
Definition matches (searchTerm title description : string) : bool :=
  like searchTerm (LOWER title) || like searchTerm (LOWER description).

(** ... ORDER BY created_at DESC LIMIT 5 *)
Definition newest_five (rows : list hit.row) : list hit.row :=
  limit 5 (order_by (λ a b, hit.created_at b <=? hit.created_at a) rows).

Definition select (searchTerm : string) (rows : list hit.row) : list hit.row :=
  newest_five (filter (λ r, matches searchTerm (hit.title r) (hit.description r)) rows).

Definition story_hit (s : story.row) : hit.row :=
  hit.Row "story" (story.id s) (story.title s) (story.description s) (story.created_at s).

Definition task_hit (t : task.row) : hit.row :=
  hit.Row "task" (task.id t) (task.title t) (task.description t) (task.created_at t).

Definition lesson_hit (l : lessons.row) : hit.row :=
  hit.Row "lesson" (lessons.id l) (lessons.title l) (lessons.description l)
          (lessons.created_at l).

Definition knowledge_hit (k : knowledge.row) : hit.row :=
  hit.Row "knowledge" (knowledge.id k) (knowledge.title k) (knowledge.content k)
          (knowledge.created_at k).

(** The array [results] after the four pushes. *)
Definition results (query : string) (st : db) : list hit.row :=
  let searchTerm := "%" +:+ toLowerCase query +:+ "%" in
  select searchTerm (story_hit <$> story st) ++
  select searchTerm (task_hit <$> task st) ++
  select searchTerm (lesson_hit <$> lessons st) ++
  select searchTerm (knowledge_hit <$> knowledge st).

(** [substring(0, 150)] counts UTF-16 code units: on an ASCII description,
    its characters. *)
Definition result_lines (r : hit.row) : list string :=
  [ "**" +:+ toUpperCase (hit.type r) +:+ " #" +:+ show (hit.id r) +:+ "**: " +:+
    hit.title r;
    substring 0 150 (hit.description r) +:+ "...\n" ].

(** The array [response] of a search that found something. *)
Definition response (query : string) (rs : list hit.row) : list string :=
  ("## 🔍 Search Results for " +:+ quote +:+ query +:+ quote +:+ "\n")
  :: (rs ≫= result_lines).

(** The rows the four SELECTs scan: LIKE is evaluated on each of them. *)
Definition scanned (st : db) : nat :=
  (length (story st) + length (task st) + length (lessons st) +
   length (knowledge st))%nat.

(** The catch of search: the first row scanned with a pattern that LIKE
    refuses fails its statement, and the error is returned as text. *)
Definition search (args : bag) (st : db) : outcome :=
  match str args "query" with
  | None => Thrown "undefined is not an object (evaluating 'query.toLowerCase')"
  | Some query =>
      let searchTerm := "%" +:+ toLowerCase query +:+ "%" in
      if too_complex searchTerm && negb (Nat.eqb (scanned st) 0) then
        Returned ("Search error: " +:+ pattern_too_complex)
      else
        match results query st with
        | [] => Returned ("No results found for " +:+ quote +:+ query +:+ quote)
        | rs => Returned (join "\n" (response query rs))
        end
  end.

(** *** handleListTools: the properties each inputSchema lists as required *)

Definition required (tool : string) : list string :=
  if decide (tool = "ccmem_learn_setting") then ["category"; "key"; "value"]
  else if decide (tool = "ccmem_learn_architecture") then
    ["component"; "description"; "tech_stack"]
  else if decide (tool = "ccmem_learn_deployment") then ["environment"; "deployment_steps"]
  else if decide (tool = "ccmem_create_story") then ["title"; "description"]
  else if decide (tool = "ccmem_create_task") then ["title"; "description"]
  else if decide (tool = "ccmem_log_defect") then ["title"; "description"]
  else if decide (tool = "ccmem_record_lesson") then ["title"; "description"; "category"]
  else if decide (tool = "ccmem_add_knowledge") then ["title"; "content"]
  else if decide (tool = "ccmem_search") then ["query"]
  else [].

(** The tools that write. *)
Definition write_tools : list string :=
  ["ccmem_learn_setting"; "ccmem_learn_architecture"; "ccmem_learn_deployment";
   "ccmem_create_story"; "ccmem_create_task"; "ccmem_log_defect";
   "ccmem_record_lesson"; "ccmem_add_knowledge"].

(** *** The dispatcher *)

Definition handleCallTool (now : Z) (name : string) (args : bag) (st : db) :
    db * outcome :=
  if decide (name = "ccmem_learn_setting") then learnSetting now args st
  else if decide (name = "ccmem_learn_architecture") then learnArchitecture now args st
  else if decide (name = "ccmem_learn_deployment") then learnDeployment now args st
  else if decide (name = "ccmem_create_story") then createStory now args st
  else if decide (name = "ccmem_create_task") then createTask now args st
  else if decide (name = "ccmem_log_defect") then logDefect now args st
  else if decide (name = "ccmem_record_lesson") then recordLesson now args st
  else if decide (name = "ccmem_add_knowledge") then addKnowledge now args st
  else if decide (name = "ccmem_get_context") then (st, getContext args st)
  else if decide (name = "ccmem_search") then (st, search args st)
  else (st, Thrown ("Unknown tool: " +:+ name)).

(** A call with the clock reading at which its statement runs. *)
Record call := Call {
  at_time : Z;
  tool : string;
  arguments : bag
}.

Definition step (st : db) (c : call) : db :=
  (handleCallTool (at_time c) (tool c) (arguments c) st).1.

(** The database after a sequence of calls. *)
Definition after (calls : list call) (st : db) : db := foldl step st calls.

(** *** The JSON-RPC envelope *)

Definition handleInitialize : json :=
  JObj
    [ ("protocolVersion", JStr "2024-11-05");
      ("capabilities", JObj [("tools", JObj [])]);
      ("serverInfo", JObj [("name", JStr "ccmem"); ("version", JStr "1.0.0")]) ].

Definition handleListTools : json :=
  JObj
    [ ("tools", JArr
        [ JObj
            [ ("name", JStr "ccmem_learn_setting");
              ("description", JStr "Learn and store project settings (start, test, build commands, etc.)");
              ("inputSchema", JObj
                [ ("type", JStr "object");
                  ("properties", JObj
                    [ ("category", JObj
                        [ ("type", JStr "string");
                          ("description", JStr "Setting category (start, test, build, deploy, env, config)") ]);
                      ("key", JObj
                        [ ("type", JStr "string");
                          ("description", JStr "Setting key name") ]);
                      ("value", JObj
                        [ ("type", JStr "string");
                          ("description", JStr "Setting value") ]);
                      ("description", JObj
                        [ ("type", JStr "string");
                          ("description", JStr "Optional description") ]) ]);
                  ("required", JArr [JStr "category"; JStr "key"; JStr "value"]) ]) ];
          JObj
            [ ("name", JStr "ccmem_learn_architecture");
              ("description", JStr "Learn and store architecture decisions and components");
              ("inputSchema", JObj
                [ ("type", JStr "object");
                  ("properties", JObj
                    [ ("component", JObj
                        [ ("type", JStr "string");
                          ("description", JStr "Component name") ]);
                      ("description", JObj
                        [ ("type", JStr "string");
                          ("description", JStr "Component description") ]);
                      ("tech_stack", JObj
                        [ ("type", JStr "string");
                          ("description", JStr "Technologies used (comma-separated)") ]);
                      ("file_paths", JObj
                        [ ("type", JStr "string");
                          ("description", JStr "Related file paths (comma-separated)") ]);
                      ("patterns", JObj
                        [ ("type", JStr "string");
                          ("description", JStr "Design patterns used") ]) ]);
                  ("required", JArr [JStr "component"; JStr "description"; JStr "tech_stack"]) ]) ];
          JObj
            [ ("name", JStr "ccmem_learn_deployment");
              ("description", JStr "Learn and store deployment procedures");
              ("inputSchema", JObj
                [ ("type", JStr "object");
                  ("properties", JObj
                    [ ("environment", JObj
                        [ ("type", JStr "string");
                          ("description", JStr "Environment (dev, staging, production)") ]);
                      ("target_host", JObj
                        [ ("type", JStr "string");
                          ("description", JStr "Target host or server") ]);
                      ("deployment_steps", JObj
                        [ ("type", JStr "string");
                          ("description", JStr "Step-by-step deployment process") ]);
                      ("test_verification", JObj
                        [ ("type", JStr "string");
                          ("description", JStr "How to verify deployment") ]);
                      ("rollback_steps", JObj
                        [ ("type", JStr "string");
                          ("description", JStr "Rollback procedure") ]) ]);
                  ("required", JArr [JStr "environment"; JStr "deployment_steps"]) ]) ];
          JObj
            [ ("name", JStr "ccmem_create_story");
              ("description", JStr "Create a user story (instead of GitHub PR)");
              ("inputSchema", JObj
                [ ("type", JStr "object");
                  ("properties", JObj
                    [ ("title", JObj
                        [ ("type", JStr "string");
                          ("description", JStr "Story title") ]);
                      ("description", JObj
                        [ ("type", JStr "string");
                          ("description", JStr "Story description") ]);
                      ("priority", JObj
                        [ ("type", JStr "number");
                          ("description", JStr "Priority (1=critical, 5=low)") ]);
                      ("files_affected", JObj
                        [ ("type", JStr "string");
                          ("description", JStr "Files that will be affected (comma-separated)") ]) ]);
                  ("required", JArr [JStr "title"; JStr "description"]) ]) ];
          JObj
            [ ("name", JStr "ccmem_create_task");
              ("description", JStr "Create a development task");
              ("inputSchema", JObj
                [ ("type", JStr "object");
                  ("properties", JObj
                    [ ("story_id", JObj
                        [ ("type", JStr "number");
                          ("description", JStr "Related story ID (optional)") ]);
                      ("title", JObj [("type", JStr "string"); ("description", JStr "Task title")]);
                      ("description", JObj
                        [ ("type", JStr "string");
                          ("description", JStr "Task description") ]);
                      ("files_affected", JObj
                        [ ("type", JStr "string");
                          ("description", JStr "Files to be modified") ]);
                      ("implementation_notes", JObj
                        [ ("type", JStr "string");
                          ("description", JStr "Implementation notes") ]) ]);
                  ("required", JArr [JStr "title"; JStr "description"]) ]) ];
          JObj
            [ ("name", JStr "ccmem_log_defect");
              ("description", JStr "Log a bug or defect");
              ("inputSchema", JObj
                [ ("type", JStr "object");
                  ("properties", JObj
                    [ ("title", JObj [("type", JStr "string"); ("description", JStr "Bug title")]);
                      ("description", JObj
                        [ ("type", JStr "string");
                          ("description", JStr "Bug description") ]);
                      ("severity", JObj
                        [ ("type", JStr "string");
                          ("description", JStr "Severity (critical, high, medium, low)") ]);
                      ("files_affected", JObj
                        [ ("type", JStr "string");
                          ("description", JStr "Files affected by bug") ]);
                      ("story_id", JObj
                        [ ("type", JStr "number");
                          ("description", JStr "Related story ID (optional)") ]);
                      ("task_id", JObj
                        [ ("type", JStr "number");
                          ("description", JStr "Related task ID (optional)") ]) ]);
                  ("required", JArr [JStr "title"; JStr "description"]) ]) ];
          JObj
            [ ("name", JStr "ccmem_record_lesson");
              ("description", JStr "Record lessons learned from development");
              ("inputSchema", JObj
                [ ("type", JStr "object");
                  ("properties", JObj
                    [ ("title", JObj
                        [ ("type", JStr "string");
                          ("description", JStr "Lesson title") ]);
                      ("description", JObj
                        [ ("type", JStr "string");
                          ("description", JStr "Detailed lesson description") ]);
                      ("category", JObj
                        [ ("type", JStr "string");
                          ("description", JStr "Category (architecture, performance, security, process)") ]);
                      ("impact_level", JObj
                        [ ("type", JStr "string");
                          ("description", JStr "Impact level (critical, high, medium, low)") ]);
                      ("related_files", JObj
                        [ ("type", JStr "string");
                          ("description", JStr "Related files (comma-separated)") ]);
                      ("tags", JObj
                        [ ("type", JStr "string");
                          ("description", JStr "Tags (comma-separated)") ]) ]);
                  ("required", JArr [JStr "title"; JStr "description"; JStr "category"]) ]) ];
          JObj
            [ ("name", JStr "ccmem_add_knowledge");
              ("description", JStr "Add general project knowledge or notes");
              ("inputSchema", JObj
                [ ("type", JStr "object");
                  ("properties", JObj
                    [ ("title", JObj
                        [ ("type", JStr "string");
                          ("description", JStr "Knowledge title") ]);
                      ("content", JObj
                        [ ("type", JStr "string");
                          ("description", JStr "Knowledge content") ]);
                      ("category", JObj
                        [ ("type", JStr "string");
                          ("description", JStr "Category (general, process, reference, reminder)") ]);
                      ("tags", JObj
                        [ ("type", JStr "string");
                          ("description", JStr "Tags (comma-separated)") ]) ]);
                  ("required", JArr [JStr "title"; JStr "content"]) ]) ];
          JObj
            [ ("name", JStr "ccmem_get_context");
              ("description", JStr "Get project context and memory for development assistance");
              ("inputSchema", JObj
                [ ("type", JStr "object");
                  ("properties", JObj
                    [ ("focus", JObj
                        [ ("type", JStr "string");
                          ("description", JStr "Focus area (all, settings, architecture, current, recent)") ]) ]) ]) ];
          JObj
            [ ("name", JStr "ccmem_search");
              ("description", JStr "Search project memory");
              ("inputSchema", JObj
                [ ("type", JStr "object");
                  ("properties", JObj
                    [ ("query", JObj
                        [ ("type", JStr "string");
                          ("description", JStr "Search query") ]);
                      ("category", JObj
                        [ ("type", JStr "string");
                          ("description", JStr "Limit to category (optional)") ]) ]);
                  ("required", JArr [JStr "query"]) ]) ] ]) ].

(** JSON.stringify leaves out a property that is undefined. *)
Definition sendResponse (id : option json) (result : json) : output :=
  Log (JObj ([("jsonrpc", JStr "2.0")] ++
             match id with Some i => [("id", i)] | None => [] end ++
             [("result", result)])).

(** [id = null] is the default of the parameter: an id that is undefined is
    written as null. *)
Definition sendError (message : string) (id : option json) : output :=
  LogError
    (JObj [ ("jsonrpc", JStr "2.0"); ("id", default JNull id);
            ("error", JObj [("code", JNum (-1)); ("message", JStr message)]) ]).

(** The cases of the switch of handleCallTool. *)
Definition handled : list string :=
  write_tools ++ ["ccmem_get_context"; "ccmem_search"].

(** handleCallTool(params) for params as a request gives them.  It
    destructures [params], and the handler of every case destructures the
    arguments in its first statement: on undefined or null either throws a
    TypeError, with the message [type_error] of the engine.  The default case
    does not look at the arguments. *)
Definition call_tool (type_error : string) (now : Z) (params : passed rpc.params)
    (st : db) : db * outcome :=
  match params with
  | Given p =>
      match rpc.arguments p with
      | Given args => handleCallTool now (rpc.name p) args st
      | _ =>
          if decide (rpc.name p ∈ handled) then (st, Thrown type_error)
          else (st, Thrown ("Unknown tool: " +:+ rpc.name p))
      end
  | _ => (st, Thrown type_error)
  end.

Definition handleMCPRequest (type_error : string) (now : Z) (request : rpc.request)
    (st : db) : db * output :=
  let id := rpc.id request in
  let method := rpc.method request in
  let params := rpc.call request in
  if decide (method = "initialize") then (st, sendResponse id handleInitialize)
  else if decide (method = "list_tools") then (st, sendResponse id handleListTools)
  else if decide (method = "call_tool") then
    match call_tool type_error now params st with
    | (st', Returned text) => (st', sendResponse id (content text))
    | (st', Thrown message) => (st', sendError message id)
    end
  else (st, sendError ("Unknown method: " +:+ method) id).

End Bun.

(** ** The JSON-file server (class CCMemNodeServer) *)

Module Node.
Import Js.

(** An object of the settings array, as learnSetting builds it.  [None] is
    undefined for category, key_name and value, and null for description. *)
Module setting.
Record object := Object {
  id : Z;
  category : option string;
  key_name : option string;
  value : option string;
  description : option string;
  created_at : Z;
  updated_at : Z
}.
End setting.

(** An object of the other arrays: the server reads nothing of it but its
    status. *)
Record entry := Entry { status : option string }.

(** [this.data], which saveData writes to ccmem.json after every change. *)
Record data := Data {
  settings : list setting.object;
  architecture : list entry;
  deployment : list entry;
  story : list entry;
  task : list entry;
  defect : list entry;
  lessons : list entry;
  knowledge : list entry
}.

(** The structure initializeStorage starts from. *)
Definition fresh : data := Data [] [] [] [] [] [] [] [].

(** The three clock readings of one learnSetting: Date.now() and the two
    new Date(). *)
Record clock := Clock {
  date_now : Z;
  created : Z;
  updated : Z
}.

Definition learnSetting (now : clock) (args : bag) (d : data) : data * outcome :=
  let category := str args "category" in
  let key := str args "key" in
  let value := str args "value" in
  let description := str args "description" in
  let kept :=
    filter (λ s, ¬ (setting.category s = category ∧ setting.key_name s = key))
           (settings d) in
  let pushed :=
    kept ++ [ setting.Object (date_now now) category key value (or_null description)
                             (created now) (updated now) ] in
  (Data pushed (architecture d) (deployment d) (story d) (task d) (defect d)
        (lessons d) (knowledge d),
   Returned ("✅ Learned setting: " +:+ interp category +:+ "." +:+ interp key +:+
             " = " +:+ quote +:+ interp value +:+ quote +:+ newline +:+ newline +:+
             "I'll remember this project configuration for future development assistance.")).

Definition count (n : nat) : string := show (Z.of_nat n).

Definition status_summary (d : data) : list string :=
  let settingsCount := length (settings d) in
  let architectureCount := length (architecture d) in
  let storiesCount := length (filter (λ s, status s = Some "active") (story d)) in
  [ "## 🎯 Project Status";
    "- Settings Learned: " +:+ count settingsCount;
    "- Architecture Components: " +:+ count architectureCount;
    "- Active Stories: " +:+ count storiesCount ].

Definition settings_section (d : data) : list string :=
  match settings d with
  | [] => []
  | rows =>
      "\n## ⚙️ Key Settings" ::
      ((λ s, "- " +:+ interp (setting.category s) +:+ "." +:+ interp (setting.key_name s) +:+
             ": `" +:+ interp (setting.value s) +:+ "`") <$> rows)
  end.

(** The array [context] that getContext fills. *)
Definition context (focus : string) (d : data) : list string :=
  status_summary d ++
  if bool_decide (focus = "all") || bool_decide (focus = "settings")
  then settings_section d else [].

Definition getContext (args : bag) (d : data) : outcome :=
  let focus := default "all" (str args "focus") in
  Returned (join "\n" (context focus d)).

(** handleListTools: the required properties of the one writing tool. *)
Definition required (tool : string) : list string :=
  if decide (tool = "ccmem_learn_setting") then ["category"; "key"; "value"] else [].

Definition handleCallTool (now : clock) (name : string) (args : bag) (d : data) :
    data * outcome :=
  if decide (name = "ccmem_learn_setting") then learnSetting now args d
  else if decide (name = "ccmem_get_context") then (d, getContext args d)
  else (d, Thrown ("Unknown tool: " +:+ name)).

(** A call with the clock readings it takes, and the data after a sequence of
    calls. *)
Record call := Call {
  at_time : clock;
  tool : string;
  arguments : bag
}.

Definition step (d : data) (c : call) : data :=
  (handleCallTool (at_time c) (tool c) (arguments c) d).1.

Definition after (calls : list call) (d : data) : data := foldl step d calls.

(** *** The JSON-RPC envelope *)

Definition handleInitialize : json :=
  JObj
    [ ("protocolVersion", JStr "2024-11-05");
      ("capabilities", JObj [("tools", JObj [])]);
      ("serverInfo", JObj [("name", JStr "ccmem-node"); ("version", JStr "1.0.0")]) ].

Definition handleListTools : json :=
  JObj
    [ ("tools", JArr
        [ JObj
            [ ("name", JStr "ccmem_learn_setting");
              ("description", JStr "Learn and store project settings");
              ("inputSchema", JObj
                [ ("type", JStr "object");
                  ("properties", JObj
                    [ ("category", JObj
                        [ ("type", JStr "string");
                          ("description", JStr "Setting category") ]);
                      ("key", JObj
                        [ ("type", JStr "string");
                          ("description", JStr "Setting key name") ]);
                      ("value", JObj
                        [ ("type", JStr "string");
                          ("description", JStr "Setting value") ]);
                      ("description", JObj
                        [ ("type", JStr "string");
                          ("description", JStr "Optional description") ]) ]);
                  ("required", JArr [JStr "category"; JStr "key"; JStr "value"]) ]) ];
          JObj
            [ ("name", JStr "ccmem_get_context");
              ("description", JStr "Get project context and memory");
              ("inputSchema", JObj
                [ ("type", JStr "object");
                  ("properties", JObj
                    [ ("focus", JObj
                        [ ("type", JStr "string");
                          ("description", JStr "Focus area (all, settings, architecture)") ]) ]) ]) ] ]) ].

(** JSON.stringify leaves out a property that is undefined. *)
Definition sendResponse (id : option json) (result : json) : output :=
  Log (JObj ([("jsonrpc", JStr "2.0")] ++
             match id with Some i => [("id", i)] | None => [] end ++
             [("result", result)])).

(** [id = null] is the default of the parameter: an id that is undefined is
    written as null. *)
Definition sendError (message : string) (id : option json) : output :=
  LogError
    (JObj [ ("jsonrpc", JStr "2.0"); ("id", default JNull id);
            ("error", JObj [("code", JNum (-1)); ("message", JStr message)]) ]).

(** The cases of the switch of handleCallTool. *)
Definition handled : list string := ["ccmem_learn_setting"; "ccmem_get_context"].

(** handleCallTool(params) for params as a request gives them: as on the
    SQLite server, destructuring undefined or null, [params] here or the
    arguments in learnSetting and getContext, throws the engine's TypeError. *)
Definition call_tool (type_error : string) (now : clock) (params : passed rpc.params)
    (d : data) : data * outcome :=
  match params with
  | Given p =>
      match rpc.arguments p with
      | Given args => handleCallTool now (rpc.name p) args d
      | _ =>
          if decide (rpc.name p ∈ handled) then (d, Thrown type_error)
          else (d, Thrown ("Unknown tool: " +:+ rpc.name p))
      end
  | _ => (d, Thrown type_error)
  end.

Definition handleMCPRequest (type_error : string) (now : clock) (request : rpc.request)
    (st : data) : data * output :=
  let id := rpc.id request in
  let method := rpc.method request in
  let params := rpc.call request in
  if decide (method = "initialize") then (st, sendResponse id handleInitialize)
  else if decide (method = "list_tools") then (st, sendResponse id handleListTools)
  else if decide (method = "call_tool") then
    match call_tool type_error now params st with
    | (st', Returned text) => (st', sendResponse id (content text))
    | (st', Thrown message) => (st', sendError message id)
    end
  else (st, sendError ("Unknown method: " +:+ method) id).

End Node.

(** ** The command line (class CCMemCLI of cli.js): what each command sends *)

Module Cli.
Import Js.

(** What a command does with its arguments: it prints lines and returns, or it
    sends a call_tool request for [toolName] with [arguments].  The bag holds
    the properties that are not null. *)
Inductive step :=
| Print (lines : list string)
| Send (toolName : string) (arguments : bag).

Definition property (name : string) (value : option string) : list (string * string) :=
  match value with
  | Some v => [(name, v)]
  | None => []
  end.

(** status, search and context look for the database file first:
    [initialized] is existsSync(this.dbPath). *)
Definition status (initialized : bool) : step :=
  if initialized then
    Send "ccmem_get_context" (Bag (list_to_map [("focus", "all")]) ∅)
  else
    Print ["❌ CCMem not initialized in this project"; "Run `ccmem setup` to initialize"].

Definition search (initialized : bool) (query : option string) : step :=
  if initialized then
    match or_null query with
    | None =>
        Print ["❌ Please provide a search query";
               "Usage: ccmem search " +:+ quote +:+ "authentication" +:+ quote]
    | Some query => Send "ccmem_search" (Bag (list_to_map [("query", query)]) ∅)
    end
  else Print ["❌ CCMem not initialized in this project"].

(** [focus = 'all'] is the default of the parameter. *)
Definition context (initialized : bool) (focus : option string) : step :=
  if initialized then
    Send "ccmem_get_context" (Bag (list_to_map [("focus", default "all" focus)]) ∅)
  else Print ["❌ CCMem not initialized in this project"].

(** learn does not look for the database file. *)
Definition learn (type : option string) (args : list string) : step :=
  if decide (type = Some "setting") then
    if decide (length args < 3)%nat then
      Print ["Usage: ccmem learn setting <category> <key> <value> [description]"]
    else
      Send "ccmem_learn_setting"
           (Bag (list_to_map (property "category" (args !! 0%nat) ++
                              property "key" (args !! 1%nat) ++
                              property "value" (args !! 2%nat) ++
                              property "description" (or_null (args !! 3%nat))))
                ∅)
  else if decide (type = Some "architecture") then
    if decide (length args < 3)%nat then
      Print ["Usage: ccmem learn architecture <component> <description> <tech_stack>"]
    else
      Send "ccmem_learn_architecture"
           (Bag (list_to_map (property "component" (args !! 0%nat) ++
                              property "description" (args !! 1%nat) ++
                              property "tech_stack" (args !! 2%nat)))
                ∅)
  else Print ["Available learn types: setting, architecture"].

End Cli.

(** * The vocabulary of the properties *)

Module Spec.
Import Js Sqlite Schema.

(** ** Identifiers *)





(** ** The two stores side by side *)

(** What a caller wrote into a setting: category, key, value, description. *)
Definition content : Type :=
  option string * option string * option string * option string.

Definition row_content (s : settings.row) : content :=
  (Some (settings.category s), Some (settings.key_name s), Some (settings.value s),
   settings.description s).

Definition object_content (o : Node.setting.object) : content :=
  (Node.setting.category o, Node.setting.key_name o, Node.setting.value o,
   Node.setting.description o).

(** The SQLite table and the JSON array hold the same settings, in the same
    order. *)
Definition same_settings (st : db) (d : Node.data) : Prop :=
  row_content <$> settings st = object_content <$> Node.settings d.

Definition content_line (x : content) : string :=
  "- " +:+ interp x.1.1.1 +:+ "." +:+ interp x.1.1.2 +:+ ": `" +:+ interp x.1.2 +:+ "`".

(** ** Context reports *)



Definition first_char (s : string) : option ascii :=
  match s with
  | EmptyString => None
  | String c _ => Some c
  end.

(** ** Text *)

(** ASCII text: every byte is below 128. *)
Fixpoint ascii_text (s : string) : bool :=
  match s with
  | EmptyString => true
  | String c s' => (nat_of_ascii c <? 128)%nat && ascii_text s'
  end.

(** ** Search *)

(** The rows search looks at, as the four SELECTs give them. *)
Definition searched (st : db) : list Bun.hit.row :=
  (Bun.story_hit <$> story st) ++ (Bun.task_hit <$> task st) ++
  (Bun.lesson_hit <$> lessons st) ++ (Bun.knowledge_hit <$> knowledge st).

(** The titles and bodies that search looks at are ASCII. *)
Definition ascii_searched (st : db) : Prop :=
  Forall (λ r, ascii_text (Bun.hit.title r) = true ∧
               ascii_text (Bun.hit.description r) = true) (searched st).

(** A query whose pattern LIKE accepts: with the two percent signs it has at
    most 50000 bytes. *)
Definition short (query : string) : Prop :=
  Z.of_nat (String.length query) ≤ 49998.

(** The query has neither of the two characters LIKE reads as wildcards. *)
Fixpoint wildcard_free (q : string) : bool :=
  match q with
  | EmptyString => true
  | String c q' =>
      negb (Ascii.eqb c "%"%char) && negb (Ascii.eqb c "_"%char) && wildcard_free q'
  end.

(** [s] contains [q], letter case aside. *)
Definition contains (q s : string) : Prop :=
  ∃ pre mid post, s = pre +:+ mid +:+ post ∧ toLowerCase mid = toLowerCase q.

Definition hit_contains (q : string) (r : Bun.hit.row) : Prop :=
  contains q (Bun.hit.title r) ∨ contains q (Bun.hit.description r).

Definition newer_first (a b : Bun.hit.row) : bool :=
  Bun.hit.created_at b <=? Bun.hit.created_at a.

(** ** Tools and tables *)

(** The table a writing tool inserts into. *)
Definition table_of (tool : string) : option table :=
  if decide (tool = "ccmem_learn_setting") then Some Settings
  else if decide (tool = "ccmem_learn_architecture") then Some Architecture
  else if decide (tool = "ccmem_learn_deployment") then Some Deployment
  else if decide (tool = "ccmem_create_story") then Some Story
  else if decide (tool = "ccmem_create_task") then Some Task
  else if decide (tool = "ccmem_log_defect") then Some Defect
  else if decide (tool = "ccmem_record_lesson") then Some Lessons
  else if decide (tool = "ccmem_add_knowledge") then Some Knowledge
  else None.

(** ** Keys and orders *)

(** The UNIQUE key of a settings row, and what learnSetting of the JSON server
    compares. *)
Definition setting_key (s : settings.row) : string * string :=
  (settings.category s, settings.key_name s).

Definition object_key (o : Node.setting.object) : option string * option string :=
  (Node.setting.category o, Node.setting.key_name o).

(** ORDER BY category, key_name, in the byte order of the text. *)
Definition key_before (a b : settings.row) : Prop :=
  OrderedTypeEx.String_as_OT.lt (settings.category a) (settings.category b) ∨
  settings.category a = settings.category b ∧
  (OrderedTypeEx.String_as_OT.lt (settings.key_name a) (settings.key_name b) ∨
   settings.key_name a = settings.key_name b).

(** ORDER BY priority, created_at DESC *)
Definition story_before (a b : story.row) : Prop :=
  story.priority a < story.priority b ∨
  story.priority a = story.priority b ∧ story.created_at b ≤ story.created_at a.

(** The first character of every heading but the first: the headings are
    written with an escaped backslash. *)
Definition backslash : ascii := "\"%char.

(** ** Answers *)

(** [out] is the result message for a request with [id]: written with
    console.log, with the id of the request, or without one when the request
    had none. *)
Definition is_result (id : option json) (result : json) (out : output) : Prop :=
  ∃ m, out = Log m ∧ get "jsonrpc" m = Some (JStr "2.0") ∧ get "id" m = id ∧
       get "result" m = Some result.

(** [out] is the error message for a request with [id]: written with
    console.error, with code -1, and with the id of the request, or null when
    the request had none. *)
Definition is_error (id : option json) (message : string) (out : output) : Prop :=
  ∃ m, out = LogError m ∧ get "jsonrpc" m = Some (JStr "2.0") ∧
       get "id" m = Some (default JNull id) ∧
       get "error" m = Some (JObj [("code", JNum (-1)); ("message", JStr message)]).

(** ** What holds of every row the server wrote *)

(** The columns no statement of the server gives or updates hold what the
    INSERT left there: the default status, no completion or resolution time,
    updated_at as created_at. *)
Definition as_inserted (st : db) : Prop :=
  Forall (λ s, settings.updated_at s = settings.created_at s) (settings st) ∧
  Forall (λ a, architecture.updated_at a = architecture.created_at a) (architecture st) ∧
  Forall (λ d, deployment.updated_at d = deployment.created_at d ∧
               deployment.last_deployed_at d = None) (deployment st) ∧
  Forall (λ s, story.status s = "active" ∧ story.completed_at s = None ∧
               story.updated_at s = story.created_at s) (story st) ∧
  Forall (λ t, task.status t = "todo" ∧ task.completed_at t = None ∧
               task.updated_at t = task.created_at t) (task st) ∧
  Forall (λ d, defect.status d = "open" ∧ defect.resolved_at d = None ∧
               defect.fix_description d = None) (defect st) ∧
  Forall (λ k, knowledge.updated_at k = knowledge.created_at k) (knowledge st).

(** No optional column holds an empty text or the number 0, and no defaulted
    column holds an empty text or 0. *)
Definition no_falsy_stored (st : db) : Prop :=
  Forall (λ s, settings.description s ≠ Some "") (settings st) ∧
  Forall (λ a, architecture.file_paths a ≠ Some "" ∧ architecture.patterns a ≠ Some "")
         (architecture st) ∧
  Forall (λ d, deployment.target_host d ≠ Some "" ∧
               deployment.test_verification d ≠ Some "" ∧
               deployment.rollback_steps d ≠ Some "") (deployment st) ∧
  Forall (λ s, story.priority s ≠ 0 ∧ story.files_affected s ≠ Some "") (story st) ∧
  Forall (λ t, task.story_id t ≠ Some 0 ∧ task.files_affected t ≠ Some "" ∧
               task.implementation_notes t ≠ Some "") (task st) ∧
  Forall (λ d, defect.severity d ≠ "" ∧ defect.files_affected d ≠ Some "" ∧
               defect.story_id d ≠ Some 0 ∧ defect.task_id d ≠ Some 0) (defect st) ∧
  Forall (λ l, lessons.impact_level l ≠ "" ∧ lessons.related_files l ≠ Some "" ∧
               lessons.tags l ≠ Some "") (lessons st) ∧
  Forall (λ k, knowledge.category k ≠ "" ∧ knowledge.tags k ≠ Some "") (knowledge st).

End Spec.

(** * Concrete calls *)

Module Examples.
Import Js Schema.

Definition bag_of (strings : list (string * string)) (numbers : list (string * Z)) : bag :=
  Bag (list_to_map strings) (list_to_map numbers).

Definition test_command : bag :=
  bag_of [("category", "test"); ("key", "command"); ("value", "npm run test")] [].

Definition test_command_ci : bag :=
  bag_of [("category", "test"); ("key", "command"); ("value", "npm run test:ci")] [].

Definition start_command : bag :=
  bag_of [("category", "start"); ("key", "command"); ("value", "npm start")] [].

Definition test_command_without_value : bag :=
  bag_of [("category", "test"); ("key", "command")] [].

Definition api_server : bag :=
  bag_of [("component", "API Server"); ("description", "REST API using Express");
          ("tech_stack", "Node.js,Express,PostgreSQL")] [].

Definition add_login : bag :=
  bag_of [("title", "Add login"); ("description", "Implement OAuth login flow")] [].


Definition warm_cache : bag :=
  bag_of [("title", "Warm cache"); ("description", "Prime it at start");
          ("category", "performance")] [].

Definition query (q : string) : bag := bag_of [("query", q)] [].

Definition focus (f : string) : bag := bag_of [("focus", f)] [].

(** A database with one story. *)
Definition one_story : db := (Bun.createStory 7 add_login fresh).1.

(** A database with one story and one lesson. *)
Definition one_story_one_lesson : db :=
  (Bun.recordLesson 8 warm_cache (Bun.createStory 7 add_login fresh).1).1.

Definition described_test_command : bag :=
  bag_of [("category", "test"); ("key", "command"); ("value", "npm run test");
          ("description", "Runs the unit tests")] [].

End Examples.

(** * Facts *)

Import Js Sqlite Schema Spec.

(** ** Lists and strings *)

Section filter_facts.
Context {A : Type} (K : A → Prop) `{!∀ x, Decision (K x)}.

Lemma filter_none (l : list A) : (∀ x, x ∈ l → ¬ K x) → filter K l = [].
Proof.
  induction l as [|x l IH]; intros Hl; [done|].
  rewrite filter_cons, decide_False by (apply Hl; left).
  apply IH. intros y Hy. apply Hl. by right.
Qed.

Lemma filter_not_not (l : list A) :
  filter (λ x, ¬ K x) (filter (λ x, ¬ K x) l) = filter (λ x, ¬ K x) l.
Proof. rewrite list_filter_filter. apply list_filter_iff. tauto. Qed.

Lemma filter_key_not (l : list A) : filter K (filter (λ x, ¬ K x) l) = [].
Proof.
  apply filter_none. intros x Hx%list_elem_of_filter. tauto.
Qed.

(** Deleting the rows of a key and adding one row of that key leaves that
    one row under the key. *)
Lemma upsert_one (l : list A) (x : A) :
  K x → filter K (filter (λ y, ¬ K y) l ++ [x]) = [x].
Proof.
  intros Hx. rewrite filter_app, filter_key_not.
  by rewrite filter_cons, decide_True.
Qed.

End filter_facts.

Lemma filter_fmap_eq {A B C} (f : A → C) (g : B → C)
    (P : A → Prop) (Q : B → Prop) (R : C → Prop)
    `{!∀ x, Decision (P x)} `{!∀ x, Decision (Q x)} (l : list A) (k : list B) :
  (∀ x, P x ↔ R (f x)) → (∀ y, Q y ↔ R (g y)) →
  f <$> l = g <$> k → f <$> filter P l = g <$> filter Q k.
Proof.
  intros HP HQ. revert k. induction l as [|x l IH]; intros [|y k] E; try done.
  injection E as E1 E2.
  rewrite !filter_cons.
  destruct (decide (P x)) as [Hx|Hx], (decide (Q y)) as [Hy|Hy]; cbn.
  - f_equal; auto.
  - exfalso. apply Hy, HQ. rewrite <-E1. by apply HP.
  - exfalso. apply Hx, HP. rewrite E1. by apply HQ.
  - auto.
Qed.

Lemma bind_singleton {A B} (f : A → B) (l : list A) : l ≫= (λ x, [f x]) = f <$> l.
Proof. induction l as [|x l IH]; [done|]. cbn. by rewrite IH. Qed.

Lemma sublist_fmap_2 {A B} (f : A → B) (l k : list A) :
  l `sublist_of` k → f <$> l `sublist_of` f <$> k.
Proof. induction 1; cbn; by constructor. Qed.



Lemma append_nil_l s : "" +:+ s = s.
Proof. done. Qed.

Lemma append_cons c s t : String c s +:+ t = String c (s +:+ t).
Proof. done. Qed.

Lemma substring_length n s :
  String.length (substring 0 n s) = Nat.min n (String.length s).
Proof.
  revert s. induction n as [|n IH]; intros [|c s]; cbn; try done.
  by rewrite IH.
Qed.

Lemma substring_prefix n s : ∃ rest, s = substring 0 n s +:+ rest.
Proof.
  revert s. induction n as [|n IH]; intros [|c s]; cbn.
  - by exists "".
  - by eexists.
  - by exists "".
  - destruct (IH s) as [rest Hr]. exists rest.
    rewrite append_cons. congruence.
Qed.

Lemma substring_all n s : (String.length s ≤ n)%nat → substring 0 n s = s.
Proof.
  revert s. induction n as [|n IH]; intros [|c s]; cbn; try done.
  - lia.
  - intros H. rewrite IH; [done|lia].
Qed.

Lemma lower_char_idemp c : lower_char (lower_char c) = lower_char c.
Proof. by destruct c as [[] [] [] [] [] [] [] []]. Qed.


Lemma toLowerCase_idemp s : toLowerCase (toLowerCase s) = toLowerCase s.
Proof.
  induction s as [|c s IH]; [done|]. cbn. by rewrite lower_char_idemp, IH.
Qed.



(** ** ORDER BY *)

Lemma order_by_Permutation {A} (le : A → A → bool) (l : list A) : order_by le l ≡ₚ l.
Proof.
  induction l as [|x l IH]; [done|]. cbn. rewrite <-IH at 2.
  generalize (order_by le l). clear. intros l.
  induction l as [|y l IH]; cbn; [done|].
  destruct (le x y); [done|]. rewrite IH. apply Permutation_swap.
Qed.

Section order_by_facts.
Context {A : Type} (le : A → A → bool).
Hypothesis le_total : ∀ a b, le a b = true ∨ le b a = true.
Hypothesis le_trans : ∀ a b c, le a b = true → le b c = true → le a c = true.

Lemma place_elem x y l : y ∈ place le x l ↔ y = x ∨ y ∈ l.
Proof.
  induction l as [|z l IH]; cbn.
  - rewrite list_elem_of_singleton, elem_of_nil. tauto.
  - destruct (le x z); rewrite !elem_of_cons; [tauto|]. rewrite IH. tauto.
Qed.

Lemma place_sorted x l :
  StronglySorted (λ a b, le a b = true) l →
  StronglySorted (λ a b, le a b = true) (place le x l).
Proof.
  induction 1 as [|z l Hl IH Hz]; cbn; [repeat constructor|].
  destruct (le x z) eqn:E.
  - constructor; [by constructor|]. constructor; [done|].
    eapply Forall_impl; [done|]. cbn. eauto.
  - constructor; [done|]. apply Forall_forall. intros y [->|Hy]%place_elem.
    + by destruct (le_total x z) as [H|H]; [rewrite H in E|].
    + rewrite Forall_forall in Hz. auto.
Qed.

Lemma order_by_sorted l : StronglySorted (λ a b, le a b = true) (order_by le l).
Proof.
  induction l as [|x l IH]; cbn; [constructor|]. by apply place_sorted.
Qed.

End order_by_facts.

(** ** LIKE on a query without wildcards is containment *)

Lemma like_percent s : like "%" s = true.
Proof. induction s as [|c s IH]; [done|]. exact IH. Qed.

Lemma like_percent_cons p s :
  like (String "%"%char p) s =
  like p s ||
  match s with
  | EmptyString => false
  | String _ s' => like (String "%"%char p) s'
  end.
Proof. by destruct s. Qed.


Lemma like_any p s :
  like (String "%"%char p) s = true ↔ ∃ pre rest, s = pre +:+ rest ∧ like p rest = true.
Proof.
  induction s as [|d s IH]; rewrite like_percent_cons.
  - rewrite orb_false_r. split.
    + intros H. by exists "", "".
    + intros ([|? pre] & rest & E & H); [|done].
      rewrite append_nil_l in E. by subst.
  - rewrite orb_true_iff, IH. split.
    + intros [H|(pre & rest & -> & H)].
      * by exists "", (String d s).
      * by exists (String d pre), rest.
    + intros ([|c pre] & rest & E & H).
      * left. rewrite append_nil_l in E. by subst.
      * right. rewrite append_cons in E. injection E as -> ->. by exists pre, rest.
Qed.






(** ORDER BY created_at DESC LIMIT 5 keeps five of the newest rows. *)
Lemma newest_five_spec (rows : list Bun.hit.row) :
  let sel := Bun.newest_five rows in
  sel ⊆ rows ∧
  (length sel ≤ 5)%nat ∧
  StronglySorted (λ a b, Bun.hit.created_at b ≤ Bun.hit.created_at a) sel ∧
  (∀ m, m ∈ rows →
     m ∈ sel ∨
     length sel = 5%nat ∧ ∀ r, r ∈ sel → Bun.hit.created_at m ≤ Bun.hit.created_at r).
Proof.
  unfold Bun.newest_five, limit. fold newer_first.
  pose proof (order_by_Permutation newer_first rows) as Hp.
  assert (StronglySorted (λ a b, newer_first a b = true) (order_by newer_first rows)) as Hs.
  { apply order_by_sorted; unfold newer_first; intros; lia. }
  revert Hp Hs. generalize (order_by newer_first rows). intros sorted Hp Hs. cbn zeta.
  rewrite <-(take_drop 5 sorted) in Hs.
  split_and!.
  - rewrite <-Hp. apply subseteq_take.
  - rewrite length_take. lia.
  - apply StronglySorted_app_1_l in Hs. revert Hs. generalize (take 5 sorted).
    induction 1 as [|x l _ IH Hx]; constructor; [done|].
    eapply Forall_impl; [done|]. unfold newer_first. cbn. intros; lia.
  - intros m Hm. rewrite <-Hp, <-(take_drop 5 sorted), elem_of_app in Hm.
    destruct Hm as [Hm|Hm]; [by left|right]. split.
    + rewrite length_take. apply list_elem_of_lookup in Hm as [i Hi].
      apply lookup_lt_Some in Hi. rewrite length_drop in Hi. lia.
    + intros r Hr. pose proof (StronglySorted_app_1_elem_of _ _ _ _ _ Hs Hr Hm) as H.
      unfold newer_first in H. lia.
Qed.


Lemma map_chars_length f s : String.length (map_chars f s) = String.length s.
Proof. induction s as [|c s IH]; cbn; by rewrite ?IH. Qed.

Lemma append_length a b : String.length (a +:+ b) = (String.length a + String.length b)%nat.
Proof. induction a as [|c a IH]; [done|]. rewrite append_cons. cbn. by rewrite IH. Qed.

(** The pattern of a short query is one LIKE accepts. *)
Lemma short_not_too_complex query :
  short query → too_complex ("%" +:+ toLowerCase query +:+ "%") = false.
Proof.
  unfold short, too_complex, max_like_pattern_length. intros H.
  rewrite !append_length. unfold toLowerCase. rewrite map_chars_length.
  cbn [String.length]. apply Z.ltb_ge. lia.
Qed.

Lemma search_short args query st :
  str args "query" = Some query → short query →
  Bun.search args st =
    match Bun.results query st with
    | [] => Returned ("No results found for " +:+ quote +:+ query +:+ quote)
    | rs => Returned (join "\n" (Bun.response query rs))
    end.
Proof.
  intros Hq Hs. unfold Bun.search. by rewrite Hq, short_not_too_complex.
Qed.




(** ** Rowids *)




Lemma max_rowid_ge ids i : i ∈ ids → i ≤ max_rowid ids.
Proof.
  unfold max_rowid. induction 1 as [i ids|i j ids _ IH]; cbn; lia.
Qed.


Lemma new_rowid_rows t st i : i ∈ rowids t st → i < Bun.new_rowid t st.
Proof.
  intros H%max_rowid_ge. unfold Bun.new_rowid, next_rowid. lia.
Qed.

Lemma new_rowid_not_in t st : Bun.new_rowid t st ∉ rowids t st.
Proof. intros H%new_rowid_rows. lia. Qed.

(** ** What one call does to the tables *)

Lemma run_fst st r text :
  (Bun.run st r text).1 = match r with Ok (st', _) => st' | Err _ => st end.
Proof. by destruct r as [[? ?]|]. Qed.




(** A statement that succeeded: every NOT NULL column was given. *)
Ltac open_statement H :=
  repeat (match type of H with
          | context [not_null ?a ?b ?v] => destruct v; cbn in H; [|done]
          end);
  cbn in H; injection H as <- <-.









(** ** learnSetting *)

Lemma bun_learnSetting_written now args st c k v :
  str args "category" = Some c → str args "key" = Some k → str args "value" = Some v →
  Bun.learnSetting now args st =
    (Bun.put_settings
       (filter (λ s, ¬ (settings.category s = c ∧ settings.key_name s = k)) (settings st) ++
        [settings.Row (Bun.new_rowid Settings st) c k v (or_null (str args "description"))
                      now now])
       (Bun.new_rowid Settings st) st,
     Returned ("✅ Learned setting: " +:+ c +:+ "." +:+ k +:+ " = " +:+ quote +:+ v +:+
               quote +:+ newline +:+ newline +:+
               "I'll remember this project configuration for future development assistance.")).
Proof.
  intros Hc Hk Hv. unfold Bun.learnSetting, Bun.replace_settings.
  by rewrite Hc, Hk, Hv.
Qed.

Lemma bun_learnSetting_frame now args st :
  let st' := (Bun.learnSetting now args st).1 in
  architecture st' = architecture st ∧ deployment st' = deployment st ∧
  story st' = story st ∧ task st' = task st ∧ defect st' = defect st ∧
  lessons st' = lessons st ∧ knowledge st' = knowledge st ∧
  filter (λ s, ¬ (Some (settings.category s) = str args "category" ∧
                  Some (settings.key_name s) = str args "key")) (settings st') =
  filter (λ s, ¬ (Some (settings.category s) = str args "category" ∧
                  Some (settings.key_name s) = str args "key")) (settings st).
Proof.
  cbv zeta. unfold Bun.learnSetting. rewrite run_fst.
  unfold Bun.replace_settings.
  destruct (str args "category") as [c|]; [|done].
  destruct (str args "key") as [k|]; [|done].
  destruct (str args "value") as [v|]; [|done].
  cbn. repeat split; try done.
  rewrite filter_app, list_filter_filter.
  rewrite filter_cons, decide_False by (cbn; intros H; apply H; done).
  rewrite filter_nil, app_nil_r.
  apply list_filter_iff. intros s. split; [tauto|]. intros H. split; [done|].
  intros [Hc Hk]. apply H. by rewrite Hc, Hk.
Qed.

Lemma node_learnSetting_frame now args d :
  let d' := (Node.learnSetting now args d).1 in
  Node.architecture d' = Node.architecture d ∧ Node.deployment d' = Node.deployment d ∧
  Node.story d' = Node.story d ∧ Node.task d' = Node.task d ∧
  Node.defect d' = Node.defect d ∧ Node.lessons d' = Node.lessons d ∧
  Node.knowledge d' = Node.knowledge d ∧
  filter (λ s, ¬ (Node.setting.category s = str args "category" ∧
                  Node.setting.key_name s = str args "key")) (Node.settings d') =
  filter (λ s, ¬ (Node.setting.category s = str args "category" ∧
                  Node.setting.key_name s = str args "key")) (Node.settings d).
Proof.
  cbn. repeat split; try done.
  rewrite filter_app, filter_not_not.
  rewrite filter_cons, decide_False by (cbn; tauto).
  by rewrite filter_nil, app_nil_r.
Qed.

(** A write tool of the SQLite server that lacks a property its inputSchema
    requires throws the NOT NULL failure of the column and leaves the database
    as it was. *)
Lemma bun_rejects_missing_field now tool args st field :
  tool ∈ Bun.write_tools → field ∈ Bun.required tool → str args field = None →
  ∃ table column,
    Bun.handleCallTool now tool args st =
    (st, Thrown ("NOT NULL constraint failed: " +:+ table +:+ "." +:+ column)).
Proof.
  unfold Bun.write_tools. rewrite !elem_of_cons, elem_of_nil.
  intros Ht Hf Hn.
  destruct Ht as [->|[->|[->|[->|[->|[->|[->|[->|[]]]]]]]]];
    match type of Hf with
    | _ ∈ ?r => let l := eval vm_compute in r in change r with l in Hf
    end;
    rewrite !elem_of_cons, elem_of_nil in Hf;
    unfold Bun.handleCallTool;
    repeat (case_decide; [done|]); try (case_decide; [|done]).
  all: try (unfold Bun.learnSetting, Bun.replace_settings).
  all: try (unfold Bun.learnArchitecture, Bun.replace_architecture).
  all: try (unfold Bun.learnDeployment, Bun.replace_deployment).
  all: try (unfold Bun.createStory, Bun.insert_story).
  all: try (unfold Bun.createTask, Bun.insert_task).
  all: try (unfold Bun.logDefect, Bun.insert_defect).
  all: try (unfold Bun.recordLesson, Bun.insert_lessons).
  all: try (unfold Bun.addKnowledge, Bun.insert_knowledge).
  all: repeat (destruct Hf as [->|Hf];
               [ rewrite Hn; cbn;
                 repeat match goal with
                        | |- context [not_null ?t ?c (str ?a ?f)] =>
                            destruct (str a f); cbn
                        end;
                 eauto | ]);
    done.
Qed.

(** ** Context reports *)

Lemma section_cons {A} heading (rows : list A) render :
  rows ≠ [] → Bun.section heading rows render = heading :: (rows ≫= render).
Proof. by destruct rows. Qed.

Lemma bun_status_first st line :
  line ∈ Bun.status_summary st → first_char line ∈ [Some "#"%char; Some "-"%char].
Proof.
  unfold Bun.status_summary.
  destruct (or_null _), (or_null _); cbn; intros H;
    repeat (apply elem_of_cons in H as [->|H]; [cbn; rewrite !elem_of_cons; tauto|]);
    by apply elem_of_nil in H.
Qed.






Lemma bun_context_recent st :
  Bun.context "recent" st = Bun.status_summary st ++ Bun.recent_lessons_section st.
Proof. unfold Bun.context. cbn [bool_decide decide_rel]. done. Qed.



Lemma same_settings_sections st d :
  same_settings st d → Bun.settings_section st ≡ₚ Node.settings_section d.
Proof.
  unfold same_settings, Bun.settings_section, Node.settings_section.
  intros H.
  assert (order_by Bun.settings_by_key (settings st) ≡ₚ settings st) as Hp
    by apply order_by_Permutation.
  destruct (Node.settings d) as [|o os] eqn:Eo.
  - destruct (settings st); done.
  - rewrite section_cons.
    + constructor. rewrite bind_singleton, Hp.
      change (λ s, "- " +:+ settings.category s +:+ "." +:+ settings.key_name s +:+ ": `" +:+
                   settings.value s +:+ "`") with (content_line ∘ row_content).
      change (λ s, "- " +:+ interp (Node.setting.category s) +:+ "." +:+
                   interp (Node.setting.key_name s) +:+ ": `" +:+
                   interp (Node.setting.value s) +:+ "`")
        with (content_line ∘ object_content).
      by rewrite !list_fmap_compose, H.
    + intros E. rewrite E in Hp. apply Permutation_length in Hp.
      by destruct (settings st).
Qed.

(** A text that contains an underscore has one. *)
Lemma wildcard_free_app a b :
  wildcard_free (a +:+ b) = wildcard_free a && wildcard_free b.
Proof.
  induction a as [|c a IH]; [done|]. rewrite append_cons. cbn.
  rewrite IH. by rewrite !andb_assoc.
Qed.

Lemma lower_char_underscore c : lower_char c = "_"%char → c = "_"%char.
Proof. by destruct c as [[] [] [] [] [] [] [] []]. Qed.

Lemma contains_underscore s : contains "_" s → wildcard_free s = false.
Proof.
  intros (pre & mid & post & -> & H).
  destruct mid as [|c [|? ?]]; try done.
  cbn in H. injection H as H%lower_char_underscore. subst c.
  rewrite wildcard_free_app, append_cons. cbn. apply andb_false_r.
Qed.

(** * The claims *)

(** ** C1: a setting written twice *)

(** C1, as the code has it.  After two writes of one (category, key), on
    either server and from any store, exactly one row has the key; it holds
    the second value, and its updated_at is the clock reading of the second
    write.  So it is not earlier than the first write's updated_at when the
    clock did not go back, and it is later exactly when the reading
    advanced between the two writes. *)
Theorem C1_setting_written_twice st d args1 args2 t1 t2 now1 now2 c k v1 v2 :
  str args1 "category" = Some c → str args1 "key" = Some k → str args1 "value" = Some v1 →
  str args2 "category" = Some c → str args2 "key" = Some k → str args2 "value" = Some v2 →
  (let st1 := (Bun.learnSetting t1 args1 st).1 in
   let st2 := (Bun.learnSetting t2 args2 st1).1 in
   ∃ r1 r2,
     filter (λ s, settings.category s = c ∧ settings.key_name s = k) (settings st1) = [r1] ∧
     filter (λ s, settings.category s = c ∧ settings.key_name s = k) (settings st2) = [r2] ∧
     settings.value r2 = v2 ∧
     settings.updated_at r1 = t1 ∧ settings.updated_at r2 = t2 ∧
     (t1 ≤ t2 → settings.updated_at r1 ≤ settings.updated_at r2) ∧
     (settings.updated_at r1 < settings.updated_at r2 ↔ t1 < t2)) ∧
  (let d1 := (Node.learnSetting now1 args1 d).1 in
   let d2 := (Node.learnSetting now2 args2 d1).1 in
   ∃ o1 o2,
     filter (λ s, Node.setting.category s = Some c ∧ Node.setting.key_name s = Some k)
            (Node.settings d1) = [o1] ∧
     filter (λ s, Node.setting.category s = Some c ∧ Node.setting.key_name s = Some k)
            (Node.settings d2) = [o2] ∧
     Node.setting.value o2 = Some v2 ∧
     Node.setting.updated_at o1 = Node.updated now1 ∧
     Node.setting.updated_at o2 = Node.updated now2 ∧
     (Node.updated now1 ≤ Node.updated now2 →
      Node.setting.updated_at o1 ≤ Node.setting.updated_at o2) ∧
     (Node.setting.updated_at o1 < Node.setting.updated_at o2 ↔
      Node.updated now1 < Node.updated now2)).
Proof.
  intros Hc1 Hk1 Hv1 Hc2 Hk2 Hv2. split.
  - cbv zeta.
    rewrite (bun_learnSetting_written t1 args1 st c k v1) by done.
    rewrite (bun_learnSetting_written t2 args2 _ c k v2) by done.
    cbn [fst Bun.put_settings settings].
    eexists _, _. rewrite !upsert_one by done.
    repeat split; try done.
  - cbv zeta. unfold Node.learnSetting.
    rewrite Hc1, Hk1, Hv1, Hc2, Hk2, Hv2. cbn [fst Node.settings].
    eexists _, _. rewrite !upsert_one by done.
    repeat split; try done.
Qed.

(** The theorem of C1 at the spec's scenario: test.command written at 10 s and
    again, with another value, at 20 s. *)
Lemma C1_setting_written_twice_witness :
  str Examples.test_command "category" = Some "test" ∧
  str Examples.test_command "key" = Some "command" ∧
  str Examples.test_command "value" = Some "npm run test" ∧
  str Examples.test_command_ci "category" = Some "test" ∧
  str Examples.test_command_ci "key" = Some "command" ∧
  str Examples.test_command_ci "value" = Some "npm run test:ci" ∧
  ∃ r1 r2,
    filter (λ s, settings.category s = "test" ∧ settings.key_name s = "command")
           (settings (Bun.learnSetting 10 Examples.test_command fresh).1) = [r1] ∧
    filter (λ s, settings.category s = "test" ∧ settings.key_name s = "command")
           (settings (Bun.learnSetting 20 Examples.test_command_ci
                        (Bun.learnSetting 10 Examples.test_command fresh).1).1) = [r2] ∧
    settings.value r2 = "npm run test:ci" ∧
    settings.updated_at r1 < settings.updated_at r2.
Proof.
  do 6 (split; [reflexivity|]).
  destruct (C1_setting_written_twice fresh Node.fresh Examples.test_command
              Examples.test_command_ci 10 20 (Node.Clock 10 10 10) (Node.Clock 20 20 20)
              "test" "command" "npm run test" "npm run test:ci"
              eq_refl eq_refl eq_refl eq_refl eq_refl eq_refl)
    as [(r1 & r2 & H1 & H2 & Hv & _ & _ & _ & Hlt) _].
  exists r1, r2. split; [exact H1|]. split; [exact H2|]. split; [exact Hv|].
  apply Hlt. reflexivity.
Defined.

(** C1 as stated fails: two writes of test.command within one second of the
    SQLite clock.  One row is left and it holds the second value, but its
    updated_at equals the first write's. *)
Lemma C1_same_clock_reading :
  settings (Bun.learnSetting 10 Examples.test_command fresh).1 =
    [settings.Row 1 "test" "command" "npm run test" None 10 10] ∧
  settings (Bun.learnSetting 10 Examples.test_command_ci
              (Bun.learnSetting 10 Examples.test_command fresh).1).1 =
    [settings.Row 2 "test" "command" "npm run test:ci" None 10 10] ∧
  settings.updated_at <$>
    settings (Bun.learnSetting 10 Examples.test_command_ci
                (Bun.learnSetting 10 Examples.test_command fresh).1).1 =
  settings.updated_at <$> settings (Bun.learnSetting 10 Examples.test_command fresh).1.
Proof. split_and!; reflexivity. Qed.

(** ** C2: an architecture note recorded twice *)

(** C2 fails on the code: the architecture table has no UNIQUE(component), so
    INSERT OR REPLACE finds nothing to replace.  Recording the component
    "API Server" twice on a fresh database leaves two rows of that component. *)
Theorem C2_architecture_recorded_twice :
  architecture
    (Bun.after [Bun.Call 10 "ccmem_learn_architecture" Examples.api_server;
                Bun.Call 20 "ccmem_learn_architecture" Examples.api_server] fresh) =
  [architecture.Row 1 "API Server" "REST API using Express" "Node.js,Express,PostgreSQL"
                    None None 10 10;
   architecture.Row 2 "API Server" "REST API using Express" "Node.js,Express,PostgreSQL"
                    None None 20 20].
Proof. reflexivity. Qed.

(** ** C3: the two servers *)

(** C3, as the code has it.  The JSON server implements two of the ten
    tools.  On learn-setting with its required properties the two servers
    return the same text and, from stores that hold the same settings, reach
    stores that hold the same settings (one row per key, in write order), whose
    settings sections have the same lines up to order; get-context returns on
    both; every other tool name is an unknown tool to the JSON server. *)
Theorem C3_backends now clk args st d c k v :
  str args "category" = Some c → str args "key" = Some k → str args "value" = Some v →
  same_settings st d →
  let b := Bun.handleCallTool now "ccmem_learn_setting" args st in
  let n := Node.handleCallTool clk "ccmem_learn_setting" args d in
  b.2 = n.2 ∧ (∃ text, n.2 = Returned text) ∧
  same_settings b.1 n.1 ∧
  Bun.settings_section b.1 ≡ₚ Node.settings_section n.1 ∧
  (∀ args', ∃ text text',
     Bun.handleCallTool now "ccmem_get_context" args' st = (st, Returned text) ∧
     Node.handleCallTool clk "ccmem_get_context" args' d = (d, Returned text')) ∧
  (∀ name args',
     name ≠ "ccmem_learn_setting" → name ≠ "ccmem_get_context" →
     Node.handleCallTool clk name args' d = (d, Thrown ("Unknown tool: " +:+ name))).
Proof.
  intros Hc Hk Hv Hs b n.
  assert (same_settings b.1 n.1) as Hs'.
  { subst b n. unfold Bun.handleCallTool, Node.handleCallTool.
    rewrite !decide_True by done.
    unfold Bun.learnSetting, Bun.replace_settings, Node.learnSetting.
    rewrite Hc, Hk, Hv. cbn. unfold same_settings. cbn.
    rewrite !fmap_app. f_equal.
    apply (filter_fmap_eq _ _ _ _ (λ x, ¬ (x.1.1.1 = Some c ∧ x.1.1.2 = Some k)));
      [|done..].
    intros s. cbn. split; intros H [? ?]; apply H; split; congruence. }
  split_and!; try done.
  - subst b n. unfold Bun.handleCallTool, Node.handleCallTool.
    rewrite !decide_True by done.
    unfold Bun.learnSetting, Bun.replace_settings, Node.learnSetting.
    by rewrite Hc, Hk, Hv.
  - by eexists.
  - by apply same_settings_sections.
  - intros args'. by eexists _, _.
  - intros name args' H1 H2. unfold Node.handleCallTool.
    by rewrite !decide_False.
Qed.

(** The theorem of C3 at the first write of test.command on two fresh stores. *)
Lemma C3_backends_witness :
  str Examples.test_command "category" = Some "test" ∧
  str Examples.test_command "key" = Some "command" ∧
  str Examples.test_command "value" = Some "npm run test" ∧
  same_settings fresh Node.fresh ∧
  (Bun.handleCallTool 10 "ccmem_learn_setting" Examples.test_command fresh).2 =
  (Node.handleCallTool (Node.Clock 10 10 10) "ccmem_learn_setting" Examples.test_command
     Node.fresh).2 ∧
  same_settings
    (Bun.handleCallTool 10 "ccmem_learn_setting" Examples.test_command fresh).1
    (Node.handleCallTool (Node.Clock 10 10 10) "ccmem_learn_setting" Examples.test_command
       Node.fresh).1.
Proof.
  split; [reflexivity|]. split; [reflexivity|]. split; [reflexivity|].
  split; [reflexivity|].
  destruct (C3_backends 10 (Node.Clock 10 10 10) Examples.test_command fresh Node.fresh
              "test" "command" "npm run test" eq_refl eq_refl eq_refl eq_refl)
    as (Hout & _ & Hsame & _).
  split; [exact Hout | exact Hsame].
Defined.

(** C3 as stated fails: create-story is accepted by the SQLite server and is an
    unknown tool to the JSON server. *)
Lemma C3_create_story_only_in_sqlite :
  (Bun.handleCallTool 7 "ccmem_create_story" Examples.add_login fresh).2 =
    Returned ("📖 Created story #1: Add login" +:+ newline +:+ newline +:+
              "This replaces traditional GitHub PRs with intelligent project memory.") ∧
  Node.handleCallTool (Node.Clock 7 7 7) "ccmem_create_story" Examples.add_login Node.fresh =
    (Node.fresh, Thrown "Unknown tool: ccmem_create_story").
Proof. split; reflexivity. Qed.

(** ** C4: identifiers *)



(** ** C5: a required property is missing *)

(** C5 fails on the code: the JSON server's learnSetting checks nothing.
    Called without the value its inputSchema requires, it returns the
    confirmation, with the text undefined for the value, and stores a row
    that has no value. *)
Theorem C5_json_stores_setting_without_value :
  "value" ∈ Node.required "ccmem_learn_setting" ∧
  str Examples.test_command_without_value "value" = None ∧
  (Node.handleCallTool (Node.Clock 5 6 7) "ccmem_learn_setting"
     Examples.test_command_without_value Node.fresh).2 =
    Returned ("✅ Learned setting: test.command = " +:+ quote +:+ "undefined" +:+ quote +:+
              newline +:+ newline +:+
              "I'll remember this project configuration for future development assistance.") ∧
  Node.settings
    (Node.handleCallTool (Node.Clock 5 6 7) "ccmem_learn_setting"
       Examples.test_command_without_value Node.fresh).1 =
    [Node.setting.Object 5 (Some "test") (Some "command") None None 6 7].
Proof.
  split_and!; try reflexivity.
  change (Node.required "ccmem_learn_setting") with ["category"; "key"; "value"].
  rewrite !elem_of_cons. tauto.
Qed.

(** ** C6: search *)

(** C6 fails on the code: the query goes into the LIKE pattern as it is, so
    an underscore in it matches any character.  The query "_" finds the story
    "Add login", which has no underscore in its title or its description. *)
Theorem C6_underscore_matches_any_character :
  let st := (Bun.createStory 7 Examples.add_login fresh).1 in
  let r := Bun.hit.Row "story" 1 "Add login" "Implement OAuth login flow" 7 in
  Bun.results "_" st = [r] ∧
  ¬ hit_contains "_" r ∧
  Bun.search (Examples.query "_") st =
    Returned (join "\n"
                [ "## 🔍 Search Results for " +:+ quote +:+ "_" +:+ quote +:+ "\n";
                  "**STORY #1**: Add login";
                  "Implement OAuth login flow...\n" ]).
Proof.
  cbv zeta. split_and!; try reflexivity.
  intros [H|H]; by apply contains_underscore in H.
Qed.

(** ** C7: previews *)

(** C7, as the code has it, on ASCII text, where a character is one of the
    UTF-16 code units that substring counts.  What search returns shows, of
    every result, the first 150 characters of its body, the whole body when it
    has no more, followed by the ellipsis in either case.  What getContext
    returns for the focus all or recent shows, of every lesson of the
    recent-lessons section, the first 100 characters of its description,
    again followed by the ellipsis in either case.  The two parts do not
    depend on each other. *)
Theorem C7_preview_then_ellipsis st :
  (∀ args query r,
     str args "query" = Some query →
     ascii_text query = true →
     short query →
     ascii_searched st →
     r ∈ Bun.results query st →
     let body := Bun.hit.description r in
     ∃ lines,
       Bun.search args st = Returned (join "\n" lines) ∧
       (substring 0 150 body +:+ "...\n") ∈ lines ∧
       String.length (substring 0 150 body) = Nat.min 150 (String.length body) ∧
       (∃ rest, body = substring 0 150 body +:+ rest) ∧
       ((String.length body ≤ 150)%nat → (body +:+ "...\n") ∈ lines)) ∧
  (∀ args l,
     default "all" (str args "focus") ∈ ["all"; "recent"] →
     l ∈ Bun.recentLessons st →
     ascii_text (lessons.description l) = true →
     let text := lessons.description l in
     ∃ lines,
       Bun.getContext args st = Returned (join "\n" lines) ∧
       ("- **" +:+ lessons.title l +:+ "** (" +:+ lessons.category l +:+ "): " +:+
        substring 0 100 text +:+ "...") ∈ lines ∧
       String.length (substring 0 100 text) = Nat.min 100 (String.length text) ∧
       (∃ rest, text = substring 0 100 text +:+ rest) ∧
       ((String.length text ≤ 100)%nat →
        ("- **" +:+ lessons.title l +:+ "** (" +:+ lessons.category l +:+ "): " +:+
         text +:+ "...") ∈ lines)).
Proof.
  split.
  - intros args query r Hq _ Hs _ Hr body.
    exists (Bun.response query (Bun.results query st)).
    assert ((substring 0 150 body +:+ "...\n") ∈ Bun.response query (Bun.results query st))
      as Hline.
    { unfold Bun.response. right. apply list_elem_of_bind. exists r. split; [|done].
      unfold Bun.result_lines. right. left. }
    split_and!; try done.
    + rewrite (search_short args query st Hq Hs).
      destruct (Bun.results query st); [by apply elem_of_nil in Hr|done].
    + apply substring_length.
    + apply substring_prefix.
    + intros Hlen. by rewrite substring_all in Hline.
  - intros args l Hf Hl _ text.
    exists (Bun.context (default "all" (str args "focus")) st).
    assert (Bun.lesson_line l ∈ Bun.context (default "all" (str args "focus")) st)
      as Hlesson.
    { assert (Bun.lesson_line l ∈ Bun.recent_lessons_section st) as Hsec.
      { unfold Bun.recent_lessons_section, Bun.section.
        destruct (Bun.recentLessons st) as [|l0 ls] eqn:E; [by apply elem_of_nil in Hl|].
        right. apply list_elem_of_bind. exists l. split; [left|done]. }
      rewrite !elem_of_cons, elem_of_nil in Hf.
      destruct Hf as [->|[->|[]]]; unfold Bun.context;
        cbn [bool_decide decide_rel]; cbn [orb Bun.when];
        rewrite !elem_of_app; tauto. }
    split_and!; try done.
    + apply substring_length.
    + apply substring_prefix.
    + intros Hlen. unfold Bun.lesson_line in Hlesson. by rewrite substring_all in Hlesson.
Qed.

(** The theorem of C7 for the search on a database that has the story "Add
    login" and no lesson, and for the context on one that has the lesson
    "Warm cache" too. *)
Lemma C7_preview_then_ellipsis_witness :
  (str (Examples.query "login") "query" = Some "login" ∧
   ascii_text "login" = true ∧
   short "login" ∧
   ascii_searched Examples.one_story ∧
   Bun.hit.Row "story" 1 "Add login" "Implement OAuth login flow" 7
     ∈ Bun.results "login" Examples.one_story ∧
   ∃ lines,
     Bun.search (Examples.query "login") Examples.one_story =
       Returned (join "\n" lines) ∧
     "Implement OAuth login flow...\n" ∈ lines) ∧
  (default "all" (str (Examples.focus "recent") "focus") ∈ ["all"; "recent"] ∧
   lessons.Row 1 "Warm cache" "Prime it at start" "performance" "medium" None None 8
     ∈ Bun.recentLessons Examples.one_story_one_lesson ∧
   ascii_text "Prime it at start" = true ∧
   ∃ lines,
     Bun.getContext (Examples.focus "recent") Examples.one_story_one_lesson =
       Returned (join "\n" lines) ∧
     "- **Warm cache** (performance): Prime it at start..." ∈ lines).
Proof.
  assert (short "login") as Hs by (unfold short; cbn; lia).
  assert (ascii_searched Examples.one_story) as Ha by (by repeat constructor).
  assert (Bun.hit.Row "story" 1 "Add login" "Implement OAuth login flow" 7
            ∈ Bun.results "login" Examples.one_story) as Hr by left.
  assert (default "all" (str (Examples.focus "recent") "focus") ∈ ["all"; "recent"])
    as Hf by (right; left).
  assert (lessons.Row 1 "Warm cache" "Prime it at start" "performance" "medium" None None 8
            ∈ Bun.recentLessons Examples.one_story_one_lesson) as Hl by left.
  destruct (C7_preview_then_ellipsis Examples.one_story) as [Hsearch _].
  destruct (C7_preview_then_ellipsis Examples.one_story_one_lesson) as [_ Hcontext].
  split.
  - split; [reflexivity|]. split; [reflexivity|]. split; [exact Hs|]. split; [exact Ha|].
    split; [exact Hr|].
    destruct (Hsearch (Examples.query "login") "login" _ eq_refl eq_refl Hs Ha Hr)
      as (lines & Hret & _ & _ & _ & Hwhole).
    exists lines. split; [exact Hret|]. apply Hwhole. cbn. lia.
  - split; [exact Hf|]. split; [exact Hl|]. split; [reflexivity|].
    destruct (Hcontext (Examples.focus "recent") _ Hf Hl eq_refl)
      as (lines & Hret & _ & _ & _ & Hwhole).
    exists lines. split; [exact Hret|]. apply Hwhole. cbn. lia.
Defined.

(** C7 as stated fails: a body of 26 characters and a lesson description of 17
    characters are rendered whole and still followed by the ellipsis. *)
Lemma C7_short_body_gets_ellipsis :
  Bun.response "login" (Bun.results "login" Examples.one_story_one_lesson) =
    [ "## 🔍 Search Results for " +:+ quote +:+ "login" +:+ quote +:+ "\n";
      "**STORY #1**: Add login";
      "Implement OAuth login flow...\n" ] ∧
  String.length "Implement OAuth login flow" = 26%nat ∧
  Bun.recent_lessons_section Examples.one_story_one_lesson =
    [ "\n## 🧠 Recent Lessons";
      "- **Warm cache** (performance): Prime it at start..." ] ∧
  String.length "Prime it at start" = 17%nat.
Proof. split_and!; reflexivity. Qed.

(** ** C8: the focus of getContext *)




(** ** C9: a task of a story that does not exist *)




(** ** C10: what learnSetting leaves alone *)

(** C10.  On either server learn-setting leaves the seven other collections
    as they were, and leaves the settings of every other (category, key) as they
    were, in their order. *)
Theorem C10_learnSetting_frame now clk args st d :
  (let st' := (Bun.learnSetting now args st).1 in
   architecture st' = architecture st ∧ deployment st' = deployment st ∧
   story st' = story st ∧ task st' = task st ∧ defect st' = defect st ∧
   lessons st' = lessons st ∧ knowledge st' = knowledge st ∧
   filter (λ s, ¬ (Some (settings.category s) = str args "category" ∧
                   Some (settings.key_name s) = str args "key")) (settings st') =
   filter (λ s, ¬ (Some (settings.category s) = str args "category" ∧
                   Some (settings.key_name s) = str args "key")) (settings st)) ∧
  (let d' := (Node.learnSetting clk args d).1 in
   Node.architecture d' = Node.architecture d ∧ Node.deployment d' = Node.deployment d ∧
   Node.story d' = Node.story d ∧ Node.task d' = Node.task d ∧
   Node.defect d' = Node.defect d ∧ Node.lessons d' = Node.lessons d ∧
   Node.knowledge d' = Node.knowledge d ∧
   filter (λ s, ¬ (Node.setting.category s = str args "category" ∧
                   Node.setting.key_name s = str args "key")) (Node.settings d') =
   filter (λ s, ¬ (Node.setting.category s = str args "category" ∧
                   Node.setting.key_name s = str args "key")) (Node.settings d)).
Proof.
  split; [apply bun_learnSetting_frame | apply node_learnSetting_frame].
Qed.

(** * Further properties *)

(** ** The tools and what they require *)

Lemma bun_required_listed tool :
  required_of Bun.handleListTools tool = Bun.required tool.
Proof.
  unfold Bun.required. repeat case_decide; subst; try reflexivity.
  destruct (decide (tool = "ccmem_get_context")) as [->|Hg]; [reflexivity|].
  unfold required_of.
  rewrite filter_none; [done|].
  intros t Ht.
  change (items_of (get "tools" Bun.handleListTools)) with
    (ltac:(let l := eval vm_compute in (items_of (get "tools" Bun.handleListTools)) in
           exact l)) in Ht.
  repeat (apply elem_of_cons in Ht as [->|Ht]; [vm_compute; congruence|]).
  by apply elem_of_nil in Ht.
Qed.

Lemma node_required_listed tool :
  required_of Node.handleListTools tool = Node.required tool.
Proof.
  unfold Node.required. repeat case_decide; subst; try reflexivity.
  destruct (decide (tool = "ccmem_get_context")) as [->|Hg]; [reflexivity|].
  unfold required_of.
  rewrite filter_none; [done|].
  intros t Ht.
  change (items_of (get "tools" Node.handleListTools)) with
    (ltac:(let l := eval vm_compute in (items_of (get "tools" Node.handleListTools)) in
           exact l)) in Ht.
  repeat (apply elem_of_cons in Ht as [->|Ht]; [vm_compute; congruence|]).
  by apply elem_of_nil in Ht.
Qed.

Lemma bun_tool_names :
  tool_names Bun.handleListTools =
  Bun.write_tools ++ ["ccmem_get_context"; "ccmem_search"].
Proof. reflexivity. Qed.

Lemma node_tool_names :
  tool_names Node.handleListTools = ["ccmem_learn_setting"; "ccmem_get_context"].
Proof. reflexivity. Qed.

Lemma bun_thrown_unchanged now name args st st' message :
  Bun.handleCallTool now name args st = (st', Thrown message) → st' = st.
Proof.
  unfold Bun.handleCallTool.
  assert (∀ r text, Bun.run st r text = (st', Thrown message) → st' = st) as Hrun.
  { intros [[? ?]|?] text; cbn; congruence. }
  repeat case_decide; try (by apply Hrun); congruence.
Qed.

Lemma node_thrown_unchanged now name args d d' message :
  Node.handleCallTool now name args d = (d', Thrown message) →
  d' = d ∧ message = "Unknown tool: " +:+ name ∧
  name ∉ ["ccmem_learn_setting"; "ccmem_get_context"].
Proof.
  unfold Node.handleCallTool, Node.learnSetting, Node.getContext.
  rewrite !elem_of_cons, elem_of_nil.
  repeat case_decide; intros E; inversion E; subst. tauto.
Qed.

Lemma bun_returned_or_not_null now name args st :
  name ∈ Bun.write_tools →
  (∃ text, (Bun.handleCallTool now name args st).2 = Returned text) ∨
  (∃ table column,
     (Bun.handleCallTool now name args st).2 =
     Thrown ("NOT NULL constraint failed: " +:+ table +:+ "." +:+ column)).
Proof.
  unfold Bun.write_tools. rewrite !elem_of_cons, elem_of_nil.
  intros Ht.
  destruct Ht as [->|[->|[->|[->|[->|[->|[->|[->|[]]]]]]]]];
    unfold Bun.handleCallTool;
    repeat (case_decide; [done|]); try (case_decide; [|done]).
  all: try (unfold Bun.learnSetting, Bun.replace_settings).
  all: try (unfold Bun.learnArchitecture, Bun.replace_architecture).
  all: try (unfold Bun.learnDeployment, Bun.replace_deployment).
  all: try (unfold Bun.createStory, Bun.insert_story).
  all: try (unfold Bun.createTask, Bun.insert_task).
  all: try (unfold Bun.logDefect, Bun.insert_defect).
  all: try (unfold Bun.recordLesson, Bun.insert_lessons).
  all: try (unfold Bun.addKnowledge, Bun.insert_knowledge).
  all: repeat match goal with
              | |- context [not_null ?t ?c (str ?a ?f)] => destruct (str a f); cbn
              end;
    eauto.
Qed.

Lemma bun_accepts now tool args st :
  tool ∈ Bun.write_tools →
  (∀ f, f ∈ Bun.required tool → is_Some (str args f)) →
  ∃ st' text t,
    Bun.handleCallTool now tool args st = (st', Returned text) ∧
    table_of tool = Some t ∧ Bun.new_rowid t st ∈ rowids t st'.
Proof.
  unfold Bun.write_tools. rewrite !elem_of_cons, elem_of_nil.
  intros Ht Hreq.
  destruct Ht as [->|[->|[->|[->|[->|[->|[->|[->|[]]]]]]]]];
    match type of Hreq with
    | context [Bun.required ?n] =>
        let l := eval vm_compute in (Bun.required n) in
        change (Bun.required n) with l in Hreq
    end;
    unfold Bun.handleCallTool;
    repeat (case_decide; [done|]); try (case_decide; [|done]).
  all: try (unfold Bun.learnSetting, Bun.replace_settings).
  all: try (unfold Bun.learnArchitecture, Bun.replace_architecture).
  all: try (unfold Bun.learnDeployment, Bun.replace_deployment).
  all: try (unfold Bun.createStory, Bun.insert_story).
  all: try (unfold Bun.createTask, Bun.insert_task).
  all: try (unfold Bun.logDefect, Bun.insert_defect).
  all: try (unfold Bun.recordLesson, Bun.insert_lessons).
  all: try (unfold Bun.addKnowledge, Bun.insert_knowledge).
  all: repeat match goal with
              | |- context [not_null ?t ?c (str ?a ?f)] =>
                  let H := fresh "Hf" in
                  destruct (Hreq f ltac:(compute_done)) as [? H]; rewrite H; cbn
              end.
  all: eexists _, _, _; split; [reflexivity|]; split; [reflexivity|].
  all: unfold rowids; cbn; rewrite fmap_app, elem_of_app; right; left.
Qed.

(** search returns whenever it is given a query, also when the statement
    fails. *)
Lemma search_returns args st :
  (∃ text, Bun.search args st = Returned text) ↔ is_Some (str args "query").
Proof.
  unfold Bun.search. destruct (str args "query") as [q|].
  - split; [by eexists|]. intros _.
    destruct (_ && _); [by eexists|]. destruct (Bun.results q st); by eexists.
  - split; [by intros [? ?]|by intros [? ?]].
Qed.

(** The calls that carry an argument bag. *)
Lemma bun_bag_accepts_iff now tool args st :
  tool ∈ tool_names Bun.handleListTools →
  let r := Bun.handleCallTool now tool args st in
  ((∀ f, f ∈ required_of Bun.handleListTools tool → is_Some (str args f)) ↔
   ∃ text, r.2 = Returned text) ∧
  (∀ message,
     r.2 = Thrown message →
     r.1 = st ∧
     (tool ∈ Bun.write_tools →
      ∃ table column,
        message = "NOT NULL constraint failed: " +:+ table +:+ "." +:+ column)) ∧
  (∀ text,
     r.2 = Returned text →
     match table_of tool with
     | Some t => Bun.new_rowid t st ∈ rowids t r.1
     | None => r.1 = st
     end).
Proof.
  intros Ht r. rewrite bun_required_listed.
  assert (∀ message, r.2 = Thrown message → r.1 = st) as Hthrown.
  { intros message E. unfold r in *.
    destruct (Bun.handleCallTool now tool args st) as [st1 o] eqn:Er.
    cbn in *. subst o. by eapply bun_thrown_unchanged. }
  rewrite bun_tool_names, elem_of_app in Ht. destruct Ht as [Hw|Hr].
  - assert ((∃ text, r.2 = Returned text) →
            ∀ f, f ∈ Bun.required tool → is_Some (str args f)) as Hback.
    { intros (text & E) f Hf.
      destruct (str args f) eqn:Ef; [by eexists|].
      destruct (bun_rejects_missing_field now tool args st f Hw Hf Ef) as (t & c & E').
      unfold r in E. rewrite E' in E. done. }
    split_and!.
    + split; [|done]. intros Hreq.
      destruct (bun_accepts now tool args st Hw Hreq) as (st' & text & t & E & _).
      exists text. unfold r. by rewrite E.
    + intros message E. split; [by eapply Hthrown|]. intros _.
      destruct (bun_returned_or_not_null now tool args st Hw) as [[text E']|(t & c & E')];
        fold r in E'; rewrite E' in E; [done|].
      injection E as <-. by exists t, c.
    + intros text E.
      destruct (bun_accepts now tool args st Hw) as (st' & text' & t & E' & -> & Hin).
      { apply Hback. by exists text. }
      unfold r. by rewrite E'.
  - rewrite !elem_of_cons, elem_of_nil in Hr. destruct Hr as [->|[->|[]]].
    + change (Bun.required "ccmem_get_context") with (@nil string).
      split_and!; [|done..].
      split; [by eexists|]. intros _ f Hf. by apply elem_of_nil in Hf.
    + change (Bun.required "ccmem_search") with ["query"].
      assert (r = (st, Bun.search args st)) as -> by done. cbn [fst snd].
      split_and!; [| |done].
      * rewrite search_returns. split.
        -- intros Hreq. apply Hreq. by left.
        -- by intros Hq f ->%list_elem_of_singleton.
      * intros message _. split; [done|].
        intros Hw. exfalso. revert Hw. compute_done.
Qed.


Lemma bun_call_given type_error now p args st :
  rpc.arguments p = Given args →
  Bun.call_tool type_error now (Given p) st = Bun.handleCallTool now (rpc.name p) args st.
Proof. intros E. unfold Bun.call_tool. by rewrite E. Qed.

Lemma bun_call_not_given type_error now p st :
  (∀ args, rpc.arguments p ≠ Given args) →
  Bun.call_tool type_error now (Given p) st =
  (st, Thrown (if decide (rpc.name p ∈ Bun.handled) then type_error
               else "Unknown tool: " +:+ rpc.name p)).
Proof.
  intros Hn. unfold Bun.call_tool.
  destruct (rpc.arguments p) as [| |args]; [by case_decide..|by destruct (Hn args)].
Qed.

Lemma bun_call_thrown_unchanged type_error now params st st' message :
  Bun.call_tool type_error now params st = (st', Thrown message) → st' = st.
Proof.
  unfold Bun.call_tool. destruct params as [| |p]; [congruence..|].
  destruct (rpc.arguments p) as [| |args]; [case_decide; congruence..|].
  apply bun_thrown_unchanged.
Qed.

(** X1.  A call of a tool the SQLite server lists returns exactly when it
    carries arguments and they hold every property the tool's inputSchema
    lists as required.  A call that throws leaves the database as it was:
    without arguments the message is the engine's TypeError, and with them,
    for a writing tool, it is SQLite's NOT NULL failure.  A call that returns
    has inserted the next rowid into the tool's table, or, for get_context
    and search, has left the database as it was. *)
Theorem bun_tool_accepts_iff type_error now p st :
  rpc.name p ∈ tool_names Bun.handleListTools →
  let tool := rpc.name p in
  let r := Bun.call_tool type_error now (Given p) st in
  ((∃ args,
      rpc.arguments p = Given args ∧
      ∀ f, f ∈ required_of Bun.handleListTools tool → is_Some (str args f)) ↔
   ∃ text, r.2 = Returned text) ∧
  (∀ message,
     r.2 = Thrown message →
     r.1 = st ∧
     ((∀ args, rpc.arguments p ≠ Given args) → message = type_error) ∧
     (tool ∈ Bun.write_tools →
      (∃ args, rpc.arguments p = Given args) →
      ∃ table column,
        message = "NOT NULL constraint failed: " +:+ table +:+ "." +:+ column)) ∧
  (∀ text,
     r.2 = Returned text →
     match table_of tool with
     | Some t => Bun.new_rowid t st ∈ rowids t r.1
     | None => r.1 = st
     end).
Proof.
  intros Ht tool r.
  assert (tool ∈ Bun.handled) as Hh by by rewrite bun_tool_names in Ht.
  destruct (rpc.arguments p) as [| |args] eqn:Ea.
  1,2: assert (r = (st, Thrown type_error)) as ->
         by (unfold r; rewrite bun_call_not_given by (by rewrite Ea);
             by rewrite decide_True);
       cbn [fst snd]; split_and!;
       [ split; [by intros (? & ? & _)|by intros [? ?]]
       | intros message [= <-]; split_and!; [done|done|by intros _ [? ?]]
       | done ].
  assert (r = Bun.handleCallTool now tool args st) as -> by by apply bun_call_given.
  destruct (bun_bag_accepts_iff now tool args st Ht) as (Hiff & Hthrown & Hret).
  cbv zeta in Hiff, Hthrown, Hret. split_and!.
  - rewrite <-Hiff. split.
    + by intros (args' & [= <-] & Hreq).
    + intros Hreq. by exists args.
  - intros message E. destruct (Hthrown message E) as [Hst Hnn]. split_and!; [done| |].
    + intros Hn. by destruct (Hn args).
    + intros Hw _. by apply Hnn.
  - done.
Qed.

(** The theorem at a concrete call: a story is created. *)
Lemma bun_tool_accepts_iff_witness :
  "ccmem_create_story" ∈ tool_names Bun.handleListTools ∧
  (∃ text,
     (Bun.call_tool "TypeError" 7
        (Given (rpc.Params "ccmem_create_story" (Given Examples.add_login))) fresh).2 =
     Returned text) ∧
  1 ∈ rowids Story
        (Bun.call_tool "TypeError" 7
           (Given (rpc.Params "ccmem_create_story" (Given Examples.add_login))) fresh).1.
Proof.
  assert ("ccmem_create_story" ∈ tool_names Bun.handleListTools) as Hl by compute_done.
  split; [exact Hl|].
  destruct (bun_tool_accepts_iff "TypeError" 7
              (rpc.Params "ccmem_create_story" (Given Examples.add_login)) fresh Hl)
    as ([Hreturns _] & _ & Hrow).
  assert (∃ text,
            (Bun.call_tool "TypeError" 7
               (Given (rpc.Params "ccmem_create_story" (Given Examples.add_login)))
               fresh).2 = Returned text) as Hr.
  { apply Hreturns. exists Examples.add_login. split; [reflexivity|]. intros f Hf.
    apply elem_of_cons in Hf as [->|Hf]; [by eexists|].
    apply elem_of_cons in Hf as [->|Hf]; [by eexists|].
    by apply elem_of_nil in Hf. }
  split; [exact Hr|].
  destruct Hr as [text Hr]. exact (Hrow text Hr).
Defined.

(** X2.  On either server the tools handleListTools lists are the tools
    handleCallTool dispatches: a name is listed exactly when calling it does
    not throw "Unknown tool". *)
Theorem listed_iff_dispatched now clk name args st d :
  (name ∈ tool_names Bun.handleListTools ↔
   (Bun.handleCallTool now name args st).2 ≠ Thrown ("Unknown tool: " +:+ name)) ∧
  (name ∈ tool_names Node.handleListTools ↔
   (Node.handleCallTool clk name args d).2 ≠ Thrown ("Unknown tool: " +:+ name)).
Proof.
  split.
  - rewrite bun_tool_names. split.
    + rewrite elem_of_app. intros [Hw|Hr].
      * destruct (bun_returned_or_not_null now name args st Hw) as [[text ->]|(t & c & ->)];
          [done|].
        intros E.
        apply (f_equal (λ o, match o with
                             | Thrown m => first_char m
                             | Returned _ => None
                             end)) in E.
        vm_compute in E. discriminate E.
      * rewrite !elem_of_cons, elem_of_nil in Hr. destruct Hr as [->|[->|[]]].
        -- done.
        -- unfold Bun.handleCallTool, Bun.search. cbn.
           destruct (str args "query"); [|done].
           destruct (_ && _); [done|]. by destruct (Bun.results _ _).
    + intros Hne. destruct (decide (name ∈ Bun.write_tools ++
                                    ["ccmem_get_context"; "ccmem_search"])) as [|Hn]; [done|].
      exfalso. apply Hne. unfold Bun.write_tools in Hn.
      rewrite elem_of_app, !elem_of_cons, elem_of_nil in Hn.
      unfold Bun.handleCallTool. repeat case_decide; tauto.
  - rewrite node_tool_names. split.
    + rewrite !elem_of_cons, elem_of_nil. intros [->|[->|[]]]; done.
    + intros Hne. destruct (decide (name ∈ ["ccmem_learn_setting"; "ccmem_get_context"]))
        as [|Hn]; [done|].
      exfalso. apply Hne. rewrite !elem_of_cons, elem_of_nil in Hn.
      unfold Node.handleCallTool. repeat case_decide; tauto.
Qed.

(** ** The JSON-RPC envelope *)

Lemma sendResponse_is_result id result :
  is_result id result (Bun.sendResponse id result) ∧
  is_result id result (Node.sendResponse id result).
Proof. split; eexists; (split; [reflexivity|]); by destruct id. Qed.

Lemma sendError_is_error id message :
  is_error id message (Bun.sendError message id) ∧
  is_error id message (Node.sendError message id).
Proof. split; eexists; (split; [reflexivity|]); by destruct id. Qed.

Lemma node_call_thrown type_error now params d d' message :
  Node.call_tool type_error now params d = (d', Thrown message) →
  d' = d ∧
  (message = type_error ∧
   ((∀ p, params ≠ Given p) ∨
    ∃ p, params = Given p ∧ rpc.name p ∈ Node.handled ∧
         ∀ args, rpc.arguments p ≠ Given args) ∨
   ∃ p, params = Given p ∧ message = "Unknown tool: " +:+ rpc.name p ∧
        rpc.name p ∉ Node.handled).
Proof.
  unfold Node.call_tool. destruct params as [| |p].
  1,2: intros [= <- <-]; split; [done|]; left; split; [done|]; by left.
  destruct (rpc.arguments p) as [| |args] eqn:Ea.
  1,2: case_decide; intros [= <- <-]; (split; [done|]);
       [ left; split; [done|]; right; exists p; split_and!; [done|done|];
         intros args; by rewrite Ea
       | right; by exists p ].
  intros (-> & -> & Hn)%node_thrown_unchanged. split; [done|]. right. by exists p.
Qed.

(** X3.  The SQLite server answers every request with one message that carries
    the id of the request: a result on console.log, or an error with code -1
    on console.error, in which case the database is as it was.  A request
    without id gets a result without id, or an error whose id is null.
    call_tool answers with the text the tool returned, as the one content
    item, or with the message it threw; when the request has no params, or
    names a tool of the server and gives it no arguments, that is the
    engine's TypeError.  A method other than initialize, list_tools and
    call_tool is an error naming it, and only call_tool of a writing tool,
    with arguments, changes the database. *)
Theorem bun_request_answered type_error now request st :
  let id := rpc.id request in
  let r := Bun.handleMCPRequest type_error now request st in
  let called := Bun.call_tool type_error now (rpc.call request) st in
  ((∃ result, is_result id result r.2) ∨ (∃ message, is_error id message r.2 ∧ r.1 = st)) ∧
  (rpc.method request = "call_tool" →
   r.1 = called.1 ∧
   match called.2 with
   | Returned text => is_result id (Js.content text) r.2
   | Thrown message => is_error id message r.2
   end) ∧
  (rpc.method request = "call_tool" →
   ((∀ p, rpc.call request ≠ Given p) ∨
    ∃ p, rpc.call request = Given p ∧ rpc.name p ∈ tool_names Bun.handleListTools ∧
         ∀ args, rpc.arguments p ≠ Given args) →
   r.1 = st ∧ is_error id type_error r.2) ∧
  (rpc.method request ∉ ["initialize"; "list_tools"; "call_tool"] →
   r.1 = st ∧ is_error id ("Unknown method: " +:+ rpc.method request) r.2) ∧
  (r.1 ≠ st →
   rpc.method request = "call_tool" ∧
   ∃ p args,
     rpc.call request = Given p ∧ rpc.arguments p = Given args ∧
     rpc.name p ∈ Bun.write_tools).
Proof.
  cbv zeta.
  pose proof (λ result, proj1 (sendResponse_is_result (rpc.id request) result)) as Hres.
  pose proof (λ message, proj1 (sendError_is_error (rpc.id request) message)) as Herr.
  assert (((∀ p, rpc.call request ≠ Given p) ∨
           ∃ p, rpc.call request = Given p ∧
                rpc.name p ∈ tool_names Bun.handleListTools ∧
                ∀ args, rpc.arguments p ≠ Given args) →
          Bun.call_tool type_error now (rpc.call request) st = (st, Thrown type_error))
    as Htype.
  { intros [Hc|(p & Ep & Hl & Hn)].
    - unfold Bun.call_tool. destruct (rpc.call request) as [| |p]; [done..|].
      by destruct (Hc p).
    - rewrite Ep, bun_call_not_given by done. rewrite bun_tool_names in Hl.
      by rewrite decide_True. }
  unfold Bun.handleMCPRequest.
  destruct (Bun.call_tool type_error now (rpc.call request) st)
    as [st1 [text|message]] eqn:E.
  - split_and!.
    + repeat case_decide; cbn [fst snd]; first [ left; by eexists | right; by eexists ].
    + intros Hm. rewrite Hm. repeat case_decide; try done. cbn [fst snd]. by split.
    + intros Hm Hc. by pose proof (Htype Hc).
    + intros Hm. rewrite !elem_of_cons, elem_of_nil in Hm.
      repeat case_decide; cbn [fst snd]; try tauto. done.
    + repeat case_decide; cbn [fst snd]; try done. intros Hne. split; [done|].
      revert E. unfold Bun.call_tool.
      destruct (rpc.call request) as [| |p]; [done..|].
      destruct (rpc.arguments p) as [| |args] eqn:Ea; [by case_decide..|].
      intros E. exists p, args. split_and!; [done..|].
      revert E Hne. unfold Bun.handleCallTool, Bun.write_tools.
      rewrite !elem_of_cons. repeat case_decide; try tauto; congruence.
  - pose proof (bun_call_thrown_unchanged _ _ _ _ _ _ E) as ->. split_and!.
    + repeat case_decide; cbn [fst snd]; first [ left; by eexists | right; by eexists ].
    + intros Hm. rewrite Hm. repeat case_decide; try done. cbn [fst snd]. by split.
    + intros Hm Hc. pose proof (Htype Hc) as [= <-].
      rewrite Hm. repeat case_decide; try done; cbn [fst snd]; by split.
    + intros Hm. rewrite !elem_of_cons, elem_of_nil in Hm.
      repeat case_decide; cbn [fst snd]; try tauto. done.
    + repeat case_decide; cbn [fst snd]; done.
Qed.

(** X4.  The JSON server answers every request with one message that carries
    the id of the request (a result without id, or an error with id null,
    when the request has none).  call_tool answers with the text the tool
    returned or the message it threw.  Its errors are the unknown method,
    the unknown tool, and the engine's TypeError of a call_tool request
    that has no params or gives a tool of the server no arguments; each
    leaves the data as it was, and only call_tool of ccmem_learn_setting,
    with arguments, changes the data. *)
Theorem node_request_answered type_error now request d :
  let id := rpc.id request in
  let r := Node.handleMCPRequest type_error now request d in
  let called := Node.call_tool type_error now (rpc.call request) d in
  ((∃ result, is_result id result r.2) ∨
   (∃ message,
      is_error id message r.2 ∧ r.1 = d ∧
      (message = "Unknown method: " +:+ rpc.method request ∧
       rpc.method request ∉ ["initialize"; "list_tools"; "call_tool"] ∨
       rpc.method request = "call_tool" ∧
       ((∃ p, rpc.call request = Given p ∧
              message = "Unknown tool: " +:+ rpc.name p ∧
              rpc.name p ∉ tool_names Node.handleListTools) ∨
        message = type_error ∧
        ((∀ p, rpc.call request ≠ Given p) ∨
         ∃ p, rpc.call request = Given p ∧
              rpc.name p ∈ tool_names Node.handleListTools ∧
              ∀ args, rpc.arguments p ≠ Given args))))) ∧
  (rpc.method request = "call_tool" →
   r.1 = called.1 ∧
   match called.2 with
   | Returned text => is_result id (Js.content text) r.2
   | Thrown message => is_error id message r.2
   end) ∧
  (rpc.method request = "call_tool" →
   ((∀ p, rpc.call request ≠ Given p) ∨
    ∃ p, rpc.call request = Given p ∧ rpc.name p ∈ tool_names Node.handleListTools ∧
         ∀ args, rpc.arguments p ≠ Given args) →
   r.1 = d ∧ is_error id type_error r.2) ∧
  (rpc.method request ∉ ["initialize"; "list_tools"; "call_tool"] →
   r.1 = d ∧ is_error id ("Unknown method: " +:+ rpc.method request) r.2) ∧
  (r.1 ≠ d →
   rpc.method request = "call_tool" ∧
   ∃ p args,
     rpc.call request = Given p ∧ rpc.arguments p = Given args ∧
     rpc.name p = "ccmem_learn_setting").
Proof.
  cbv zeta.
  pose proof (λ result, proj2 (sendResponse_is_result (rpc.id request) result)) as Hres.
  pose proof (λ message, proj2 (sendError_is_error (rpc.id request) message)) as Herr.
  assert (((∀ p, rpc.call request ≠ Given p) ∨
           ∃ p, rpc.call request = Given p ∧
                rpc.name p ∈ tool_names Node.handleListTools ∧
                ∀ args, rpc.arguments p ≠ Given args) →
          Node.call_tool type_error now (rpc.call request) d = (d, Thrown type_error))
    as Htype.
  { intros [Hc|(p & Ep & Hl & Hn)].
    - unfold Node.call_tool. destruct (rpc.call request) as [| |p]; [done..|].
      by destruct (Hc p).
    - rewrite Ep. unfold Node.call_tool.
      destruct (rpc.arguments p) as [| |args]; [by rewrite decide_True..|].
      by destruct (Hn args). }
  unfold Node.handleMCPRequest.
  destruct (Node.call_tool type_error now (rpc.call request) d)
    as [d1 [text|message]] eqn:E.
  - split_and!.
    + repeat case_decide; cbn [fst snd]; first [ left; by eexists | right ].
      eexists. split; [done|]. split; [done|]. left. split; [done|].
      rewrite !elem_of_cons, elem_of_nil. tauto.
    + intros Hm. rewrite Hm. repeat case_decide; try done. cbn [fst snd]. by split.
    + intros Hm Hc. by pose proof (Htype Hc).
    + intros Hm. rewrite !elem_of_cons, elem_of_nil in Hm.
      repeat case_decide; cbn [fst snd]; try tauto. done.
    + repeat case_decide; cbn [fst snd]; try done. intros Hne. split; [done|].
      revert E. unfold Node.call_tool.
      destruct (rpc.call request) as [| |p]; [done..|].
      destruct (rpc.arguments p) as [| |args] eqn:Ea; [by case_decide..|].
      intros E. exists p, args. split_and!; [done..|].
      revert E Hne. unfold Node.handleCallTool.
      repeat case_decide; try tauto; congruence.
  - pose proof (node_call_thrown _ _ _ _ _ _ E) as (-> & Hmsg). split_and!.
    + repeat case_decide; cbn [fst snd]; first [ left; by eexists | right ].
      * eexists. split; [done|]. split; [done|]. right. split; [done|].
        destruct Hmsg as [[-> Hc]|(p & Ep & -> & Hn)]; [right|left].
        -- split; [done|]. by rewrite node_tool_names.
        -- exists p. by rewrite node_tool_names.
      * eexists. split; [done|]. split; [done|]. left. split; [done|].
        rewrite !elem_of_cons, elem_of_nil. tauto.
    + intros Hm. rewrite Hm. repeat case_decide; try done. cbn [fst snd]. by split.
    + intros Hm Hc. pose proof (Htype Hc) as [= <-].
      rewrite Hm. repeat case_decide; try done; cbn [fst snd]; by split.
    + intros Hm. rewrite !elem_of_cons, elem_of_nil in Hm.
      repeat case_decide; cbn [fst snd]; try tauto. done.
    + repeat case_decide; cbn [fst snd]; done.
Qed.

(** ** A setting, written and read back *)

Lemma section_elem {A} heading (rows : list A) render r line :
  r ∈ rows → line ∈ render r → line ∈ Bun.section heading rows render.
Proof.
  intros Hr Hl. unfold Bun.section. destruct rows as [|r0 rows]; [by apply elem_of_nil in Hr|].
  right. apply list_elem_of_bind. by exists r.
Qed.

Lemma bun_settings_line st s :
  s ∈ settings st →
  ("- " +:+ settings.category s +:+ "." +:+ settings.key_name s +:+ ": `" +:+
   settings.value s +:+ "`") ∈ Bun.settings_section st.
Proof.
  intros Hs. unfold Bun.settings_section.
  eapply section_elem; [|left]. by rewrite order_by_Permutation.
Qed.

Lemma bun_context_has_settings focus st :
  focus ∈ ["all"; "settings"] → Bun.settings_section st ⊆ Bun.context focus st.
Proof.
  rewrite !elem_of_cons, elem_of_nil. intros [->|[->|[]]] line Hl;
    unfold Bun.context; cbn [bool_decide decide_rel]; cbn [orb Bun.when];
    rewrite !elem_of_app; tauto.
Qed.

Lemma bun_context_has_status focus st : Bun.status_summary st ⊆ Bun.context focus st.
Proof. intros line Hl. unfold Bun.context. rewrite elem_of_app. by left. Qed.

Lemma node_settings_line d o :
  o ∈ Node.settings d →
  ("- " +:+ interp (Node.setting.category o) +:+ "." +:+ interp (Node.setting.key_name o) +:+
   ": `" +:+ interp (Node.setting.value o) +:+ "`") ∈ Node.settings_section d.
Proof.
  intros Ho. unfold Node.settings_section.
  destruct (Node.settings d) as [|o0 os] eqn:E; [by apply elem_of_nil in Ho|].
  right. rewrite <-E in *.
  by apply (list_elem_of_fmap_2 (λ s, "- " +:+ interp (Node.setting.category s) +:+ "." +:+
                                  interp (Node.setting.key_name s) +:+ ": `" +:+
                                  interp (Node.setting.value s) +:+ "`")).
Qed.

Lemma node_context_has_settings focus d :
  focus ∈ ["all"; "settings"] → Node.settings_section d ⊆ Node.context focus d.
Proof.
  rewrite !elem_of_cons, elem_of_nil. intros [->|[->|[]]] line Hl;
    unfold Node.context; cbn [bool_decide decide_rel]; cbn [orb];
    rewrite !elem_of_app; tauto.
Qed.

(** X5.  A setting that was learned is reported: on either server, the context
    with focus all or settings (or none given), taken right after
    learnSetting, has the line of the setting with the value just written. *)
Theorem setting_round_trip now clk args fargs st d c k v :
  str args "category" = Some c → str args "key" = Some k → str args "value" = Some v →
  default "all" (str fargs "focus") ∈ ["all"; "settings"] →
  (∃ lines,
     Bun.getContext fargs (Bun.learnSetting now args st).1 = Returned (join "\n" lines) ∧
     ("- " +:+ c +:+ "." +:+ k +:+ ": `" +:+ v +:+ "`") ∈ lines) ∧
  (∃ lines,
     Node.getContext fargs (Node.learnSetting clk args d).1 = Returned (join "\n" lines) ∧
     ("- " +:+ c +:+ "." +:+ k +:+ ": `" +:+ v +:+ "`") ∈ lines).
Proof.
  intros Hc Hk Hv Hf. split.
  - eexists. split; [reflexivity|].
    apply bun_context_has_settings; [done|].
    rewrite (bun_learnSetting_written now args st c k v) by done.
    cbn [fst].
    apply (bun_settings_line _
             (settings.Row (Bun.new_rowid Settings st) c k v
                           (or_null (str args "description")) now now)).
    cbn. apply elem_of_app. right. left.
  - eexists. split; [reflexivity|].
    apply node_context_has_settings; [done|].
    unfold Node.learnSetting. rewrite Hc, Hk, Hv. cbn [fst].
    apply (node_settings_line _
             (Node.setting.Object (Node.date_now clk) (Some c) (Some k) (Some v)
                                  (or_null (str args "description"))
                                  (Node.created clk) (Node.updated clk))).
    cbn. apply elem_of_app. right. left.
Qed.

(** The theorem at a concrete call. *)
Lemma setting_round_trip_witness :
  str Examples.test_command "category" = Some "test" ∧
  str Examples.test_command "key" = Some "command" ∧
  str Examples.test_command "value" = Some "npm run test" ∧
  default "all" (str (Examples.focus "settings") "focus") ∈ ["all"; "settings"] ∧
  ∃ lines,
    Bun.getContext (Examples.focus "settings")
      (Bun.learnSetting 10 Examples.test_command fresh).1 = Returned (join "\n" lines) ∧
    "- test.command: `npm run test`" ∈ lines.
Proof.
  assert (default "all" (str (Examples.focus "settings") "focus") ∈ ["all"; "settings"])
    as Hf by compute_done.
  do 3 (split; [reflexivity|]). split; [exact Hf|].
  destruct (setting_round_trip 10 (Node.Clock 10 10 10) Examples.test_command
              (Examples.focus "settings") fresh Node.fresh "test" "command" "npm run test"
              eq_refl eq_refl eq_refl Hf) as [Hbun _].
  exact Hbun.
Defined.

Lemma setting_value_written now args st c k v :
  str args "category" = Some c → str args "key" = Some k → str args "value" = Some v →
  setting_value c k (Bun.learnSetting now args st).1 = Some v.
Proof.
  intros Hc Hk Hv. rewrite (bun_learnSetting_written now args st c k v) by done.
  unfold setting_value. cbn [fst Bun.put_settings settings].
  by rewrite upsert_one.
Qed.

Lemma setting_value_other now args st c' k' :
  ¬ (str args "category" = Some c' ∧ str args "key" = Some k') →
  setting_value c' k' (Bun.learnSetting now args st).1 = setting_value c' k' st.
Proof.
  intros Hne. unfold setting_value. f_equal. f_equal.
  destruct (bun_learnSetting_frame now args st) as (_ & _ & _ & _ & _ & _ & _ & Hf).
  cbv zeta in Hf.
  assert (∀ l : list settings.row,
            filter (λ s, settings.category s = c' ∧ settings.key_name s = k') l =
               filter (λ s, settings.category s = c' ∧ settings.key_name s = k')
                 (filter (λ s, ¬ (Some (settings.category s) = str args "category" ∧
                                  Some (settings.key_name s) = str args "key")) l)) as Hl.
  { intros l. rewrite list_filter_filter. apply list_filter_iff.
    intros s. split; [|tauto]. intros [<- <-]. split; [done|]. intros [? ?]. by apply Hne. }
  by rewrite Hl, Hf, <-Hl.
Qed.

(** X6.  learnSetting and the project_status view.  After a write the view's
    lookup of the written key gives the written value and its lookup of any
    other key is as before.  Writing start.command or test.command with a
    value that is not empty puts the command line into the status block of
    every context report; with an empty value the view holds the empty text
    and the report has no such line. *)
Theorem status_commands_round_trip now args st c k v :
  str args "category" = Some c → str args "key" = Some k → str args "value" = Some v →
  let st' := (Bun.learnSetting now args st).1 in
  setting_value c k st' = Some v ∧
  (∀ c' k', (c', k') ≠ (c, k) → setting_value c' k' st' = setting_value c' k' st) ∧
  (∀ focus,
     (c = "start" → k = "command" → v ≠ "" →
      ("- Start Command: `" +:+ v +:+ "`") ∈ Bun.context focus st') ∧
     (c = "test" → k = "command" → v ≠ "" →
      ("- Test Command: `" +:+ v +:+ "`") ∈ Bun.context focus st') ∧
     (c = "start" → k = "command" → v = "" →
      start_command (project_status st') = Some "" ∧
      Forall (λ line, line ≠ "- Start Command: ``") (Bun.status_summary st'))).
Proof.
  intros Hc Hk Hv st'.
  assert (setting_value c k st' = Some v) as Hw by by apply setting_value_written.
  split_and!; [done| |].
  - intros c' k' Hne. apply setting_value_other. rewrite Hc, Hk. intros [? ?]. apply Hne.
    congruence.
  - intros focus. split_and!.
    + intros -> -> Hne. apply bun_context_has_status. unfold Bun.status_summary.
      change (start_command (project_status st')) with (setting_value "start" "command" st').
      rewrite Hw. destruct v; [done|]. cbn [or_null].
      rewrite !elem_of_app. right. left. left.
    + intros -> -> Hne. apply bun_context_has_status. unfold Bun.status_summary.
      change (test_command (project_status st')) with (setting_value "test" "command" st').
      rewrite Hw. destruct v; [done|]. cbn [or_null].
      rewrite !elem_of_app. right. right. left.
    + intros -> -> ->. split; [done|]. unfold Bun.status_summary.
      change (start_command (project_status st')) with (setting_value "start" "command" st').
      rewrite Hw. cbn [or_null].
      apply Forall_forall. intros line Hl ->.
      rewrite !elem_of_app, !elem_of_cons, !elem_of_nil in Hl.
      destruct (or_null (test_command (project_status st'))) as [t|];
        rewrite ?elem_of_cons, ?elem_of_nil in Hl;
        destruct Hl as [[Hl|[Hl|[Hl|[Hl|[Hl|[]]]]]]|[[]|Hl]]; try discriminate Hl;
        try done.
      destruct Hl as [Hl|[]]. discriminate Hl.
Qed.

(** The theorem at a concrete call. *)
Lemma status_commands_round_trip_witness :
  str Examples.test_command "category" = Some "test" ∧
  str Examples.test_command "key" = Some "command" ∧
  str Examples.test_command "value" = Some "npm run test" ∧
  setting_value "test" "command" (Bun.learnSetting 10 Examples.test_command fresh).1 =
    Some "npm run test" ∧
  "- Test Command: `npm run test`"
    ∈ Bun.context "recent" (Bun.learnSetting 10 Examples.test_command fresh).1.
Proof.
  do 3 (split; [reflexivity|]).
  destruct (status_commands_round_trip 10 Examples.test_command fresh "test" "command"
              "npm run test" eq_refl eq_refl eq_refl) as (Hv & _ & Hlines).
  split; [exact Hv|].
  destruct (Hlines "recent") as (_ & Htest & _).
  apply Htest; [reflexivity|reflexivity|discriminate].
Defined.

(** X7.  Writing a setting replaces the whole row.  On either server the one row
    of the key after learnSetting is the row built from this call alone, last
    in the table: its description is the one given now (none, when none is
    given), its creation time is the time of this write, and no earlier row
    of the key stays. *)
Theorem setting_rewrite_replaces_row now clk args st d c k v :
  str args "category" = Some c → str args "key" = Some k → str args "value" = Some v →
  let st' := (Bun.learnSetting now args st).1 in
  let d' := (Node.learnSetting clk args d).1 in
  let row :=
    settings.Row (Bun.new_rowid Settings st) c k v (or_null (str args "description"))
                 now now in
  let object :=
    Node.setting.Object (Node.date_now clk) (Some c) (Some k) (Some v)
                        (or_null (str args "description"))
                        (Node.created clk) (Node.updated clk) in
  (filter (λ s, setting_key s = (c, k)) (settings st') = [row] ∧
   last (settings st') = Some row ∧
   ∀ old, old ∈ settings st → setting_key old = (c, k) → old ∉ settings st') ∧
  (filter (λ o, object_key o = (Some c, Some k)) (Node.settings d') = [object] ∧
   last (Node.settings d') = Some object ∧
   ∀ old, old ∈ Node.settings d → object_key old = (Some c, Some k) → old ≠ object →
          old ∉ Node.settings d').
Proof.
  intros Hc Hk Hv st' d' row object. split.
  - unfold st'. rewrite (bun_learnSetting_written now args st c k v) by done.
    cbn [fst Bun.put_settings settings]. split_and!.
    + rewrite filter_app, filter_none.
      * rewrite app_nil_l. by rewrite filter_cons, decide_True.
      * intros s [Hne _]%list_elem_of_filter E. apply Hne.
        by injection E as <- <-.
    + by rewrite last_snoc.
    + intros old Hold E. rewrite elem_of_app, list_elem_of_singleton.
      intros [[Hne _]%list_elem_of_filter| ->].
      * apply Hne. by injection E as <- <-.
      * apply (new_rowid_not_in Settings st). unfold rowids.
        apply list_elem_of_fmap. by exists row.
  - unfold d', Node.learnSetting. rewrite Hc, Hk, Hv. cbn [fst Node.settings]. split_and!.
    + rewrite filter_app, filter_none.
      * rewrite app_nil_l. by rewrite filter_cons, decide_True.
      * intros s [Hne _]%list_elem_of_filter E. apply Hne.
        by injection E as <- <-.
    + by rewrite last_snoc.
    + intros old Hold E Hneq. rewrite elem_of_app, list_elem_of_singleton.
      intros [[Hne _]%list_elem_of_filter| ->]; [|done].
      apply Hne. by injection E as <- <-.
Qed.

(** The theorem at a concrete call. *)
Lemma setting_rewrite_replaces_row_witness :
  str Examples.test_command_ci "category" = Some "test" ∧
  str Examples.test_command_ci "key" = Some "command" ∧
  str Examples.test_command_ci "value" = Some "npm run test:ci" ∧
  filter (λ s, setting_key s = ("test", "command"))
         (settings (Bun.learnSetting 20 Examples.test_command_ci
                      (Bun.learnSetting 10 Examples.described_test_command fresh).1).1) =
    [settings.Row 2 "test" "command" "npm run test:ci" None 20 20] ∧
  settings.Row 1 "test" "command" "npm run test" (Some "Runs the unit tests") 10 10
    ∉ settings (Bun.learnSetting 20 Examples.test_command_ci
                  (Bun.learnSetting 10 Examples.described_test_command fresh).1).1.
Proof.
  do 3 (split; [reflexivity|]).
  destruct (setting_rewrite_replaces_row 20 (Node.Clock 20 20 20) Examples.test_command_ci
              (Bun.learnSetting 10 Examples.described_test_command fresh).1 Node.fresh
              "test" "command" "npm run test:ci" eq_refl eq_refl eq_refl)
    as [(Hrow & _ & Hold) _].
  split; [exact Hrow|].
  apply Hold; [left|reflexivity].
Defined.

(** ** The context report *)

Lemma section_heading {A} heading (rows : list A) render x :
  first_char x = Some backslash →
  (∀ r line, line ∈ render r → first_char line ≠ Some backslash) →
  x ∈ Bun.section heading rows render ↔ x = heading ∧ rows ≠ [].
Proof.
  intros Hx Hr. unfold Bun.section. destruct rows as [|r rows].
  - rewrite elem_of_nil. tauto.
  - rewrite elem_of_cons, list_elem_of_bind. split.
    + intros [->|(y & Hy & _)]; [done|]. by destruct (Hr y x Hy).
    + intros [-> _]. by left.
Qed.

Lemma limit_order_by_nil {A} n (le : A → A → bool) (l : list A) :
  limit (S n) (order_by le l) = [] ↔ l = [].
Proof.
  unfold limit. split.
  - intros H. pose proof (order_by_Permutation le l) as Hp.
    destruct (order_by le l) as [|x k]; [|done].
    by apply Permutation_nil_l in Hp.
  - by intros ->.
Qed.

Lemma order_by_nil {A} (le : A → A → bool) (l : list A) : order_by le l = [] ↔ l = [].
Proof.
  split; [|by intros ->]. intros H. pose proof (order_by_Permutation le l) as Hp.
  rewrite H in Hp. by apply Permutation_nil_l in Hp.
Qed.

Lemma when_elem b lines (x : string) : x ∈ Bun.when b lines ↔ b = true ∧ x ∈ lines.
Proof. destruct b; cbn; [tauto|]. rewrite elem_of_nil. split; [done|]. by intros [? _]. Qed.

Lemma selected_spec focus (what : string) :
  bool_decide (focus = "all") || bool_decide (focus = what) = true ↔
  focus = "all" ∨ focus = what.
Proof. by rewrite orb_true_iff, !bool_decide_eq_true. Qed.

Lemma bun_status_no_backslash st line :
  line ∈ Bun.status_summary st → first_char line ≠ Some backslash.
Proof.
  intros H%bun_status_first. rewrite !elem_of_cons, elem_of_nil in H.
  destruct H as [->|[->|[]]]; done.
Qed.

(** X8.  A section heading of the SQLite context report is there exactly when
    the focus selects the section and the section's table has a row to show
    (for stories an active one, for tasks one that is todo or in progress). *)
Theorem heading_iff_section focus st :
  let selected what := focus = "all" ∨ focus = what in
  ("\n## ⚙️ Key Settings" ∈ Bun.context focus st ↔
   selected "settings" ∧ settings st ≠ []) ∧
  ("\n## 🏗️ Architecture" ∈ Bun.context focus st ↔
   selected "architecture" ∧ architecture st ≠ []) ∧
  ("\n## 📖 Active Stories" ∈ Bun.context focus st ↔
   selected "current" ∧ filter (λ s, story.status s = "active") (story st) ≠ []) ∧
  ("\n## ✅ Pending Tasks" ∈ Bun.context focus st ↔
   selected "current" ∧
   filter (λ t, task.status t = "todo" ∨ task.status t = "in_progress") (task st) ≠ []) ∧
  ("\n## 🧠 Recent Lessons" ∈ Bun.context focus st ↔
   selected "recent" ∧ lessons st ≠ []).
Proof.
  cbv zeta.
  assert (∀ x, first_char x = Some backslash →
    x ∈ Bun.context focus st ↔
    ((focus = "all" ∨ focus = "settings") ∧ x = "\n## ⚙️ Key Settings" ∧ settings st ≠ []) ∨
    ((focus = "all" ∨ focus = "architecture") ∧ x = "\n## 🏗️ Architecture" ∧
     architecture st ≠ []) ∨
    ((focus = "all" ∨ focus = "current") ∧
     (x = "\n## 📖 Active Stories" ∧
      filter (λ s, story.status s = "active") (story st) ≠ [] ∨
      x = "\n## ✅ Pending Tasks" ∧
      filter (λ t, task.status t = "todo" ∨ task.status t = "in_progress") (task st) ≠ [])) ∨
    ((focus = "all" ∨ focus = "recent") ∧ x = "\n## 🧠 Recent Lessons" ∧ lessons st ≠ []))
    as H.
  { intros x Hx. unfold Bun.context.
    rewrite !elem_of_app, !when_elem, !selected_spec.
    unfold Bun.settings_section, Bun.architecture_section, Bun.current_work_section,
      Bun.recent_lessons_section, Bun.activeStories, Bun.pendingTasks, Bun.recentLessons.
    rewrite elem_of_app.
    rewrite !(section_heading _ _ _ x Hx), !limit_order_by_nil, !order_by_nil.
    - split; [|tauto]. intros [Hs|H]; [|tauto]. by apply bun_status_no_backslash in Hs.
    - intros r line ->%list_elem_of_singleton. done.
    - intros r line ->%list_elem_of_singleton. done.
    - intros r line ->%list_elem_of_singleton. done.
    - intros r line. rewrite !elem_of_cons, elem_of_nil. intros [->|[->|[]]]; done.
    - intros r line ->%list_elem_of_singleton. done. }
  split_and!; rewrite H by done; (split; [|tauto]);
    intros [(? & E & ?)|[(? & E & ?)|[(? & [[E ?]|[E ?]])|(? & E & ?)]]];
    first [ discriminate E | tauto ].
Qed.

Section limit_order_by.
Context {A : Type} (le : A → A → bool).
Hypothesis le_total : ∀ a b, le a b = true ∨ le b a = true.
Hypothesis le_trans : ∀ a b c, le a b = true → le b c = true → le a c = true.

Lemma limit_order_by_spec (n : nat) (rows : list A) :
  let sel := limit n (order_by le rows) in
  sel ⊆ rows ∧
  (length sel ≤ n)%nat ∧
  StronglySorted (λ a b, le a b = true) sel ∧
  (∀ m, m ∈ rows → m ∈ sel ∨ length sel = n ∧ ∀ r, r ∈ sel → le r m = true).
Proof.
  unfold limit.
  pose proof (order_by_Permutation le rows) as Hp.
  pose proof (order_by_sorted le le_total le_trans rows) as Hs.
  revert Hp Hs. generalize (order_by le rows). intros sorted Hp Hs. cbn zeta.
  rewrite <-(take_drop n sorted) in Hs.
  split_and!.
  - rewrite <-Hp. apply subseteq_take.
  - rewrite length_take. lia.
  - by apply StronglySorted_app_1_l in Hs.
  - intros m Hm. rewrite <-Hp, <-(take_drop n sorted), elem_of_app in Hm.
    destruct Hm as [Hm|Hm]; [by left|right]. split.
    + rewrite length_take. apply list_elem_of_lookup in Hm as [i Hi].
      apply lookup_lt_Some in Hi. rewrite length_drop in Hi. lia.
    + intros r Hr. exact (StronglySorted_app_1_elem_of _ _ _ _ _ Hs Hr Hm).
Qed.

End limit_order_by.

Lemma StronglySorted_impl {A} (R S : relation A) (l : list A) :
  (∀ a b, R a b → S a b) → StronglySorted R l → StronglySorted S l.
Proof.
  intros H. induction 1 as [|x l _ IH Hx]; constructor; [done|].
  eapply Forall_impl; [done|]. auto.
Qed.

Lemma story_by_priority_spec a b : Bun.story_by_priority a b = true ↔ story_before a b.
Proof.
  unfold Bun.story_by_priority, story_before.
  rewrite orb_true_iff, andb_true_iff, Z.ltb_lt, Z.eqb_eq, Z.leb_le. done.
Qed.

(** X9.  What the context report selects: at most 3 active stories, by priority
    and then newest first; at most 5 pending tasks, newest first; at most 3
    lessons, newest first.  A row that qualifies and is not selected is
    ranked no better than each of the selected ones, which then fill the
    limit. *)
Theorem context_selections st :
  let active := filter (λ s, story.status s = "active") (story st) in
  let pending :=
    filter (λ t, task.status t = "todo" ∨ task.status t = "in_progress") (task st) in
  (Bun.activeStories st ⊆ active ∧
   (length (Bun.activeStories st) ≤ 3)%nat ∧
   StronglySorted story_before (Bun.activeStories st) ∧
   (∀ m, m ∈ active →
      m ∈ Bun.activeStories st ∨
      length (Bun.activeStories st) = 3%nat ∧
      ∀ r, r ∈ Bun.activeStories st → story_before r m)) ∧
  (Bun.pendingTasks st ⊆ pending ∧
   (length (Bun.pendingTasks st) ≤ 5)%nat ∧
   StronglySorted (λ a b, task.created_at b ≤ task.created_at a) (Bun.pendingTasks st) ∧
   (∀ m, m ∈ pending →
      m ∈ Bun.pendingTasks st ∨
      length (Bun.pendingTasks st) = 5%nat ∧
      ∀ r, r ∈ Bun.pendingTasks st → task.created_at m ≤ task.created_at r)) ∧
  (Bun.recentLessons st ⊆ lessons st ∧
   (length (Bun.recentLessons st) ≤ 3)%nat ∧
   StronglySorted (λ a b, lessons.created_at b ≤ lessons.created_at a)
                  (Bun.recentLessons st) ∧
   (∀ m, m ∈ lessons st →
      m ∈ Bun.recentLessons st ∨
      length (Bun.recentLessons st) = 3%nat ∧
      ∀ r, r ∈ Bun.recentLessons st → lessons.created_at m ≤ lessons.created_at r)).
Proof.
  cbv zeta.
  destruct (limit_order_by_spec Bun.story_by_priority) with (n := 3%nat)
    (rows := filter (λ s, story.status s = "active") (story st))
    as (Hs1 & Hs2 & Hs3 & Hs4);
    [intros *; rewrite !story_by_priority_spec; unfold story_before; lia..|].
  destruct (limit_order_by_spec (λ a b, task.created_at b <=? task.created_at a))
    with (n := 5%nat)
    (rows := filter (λ t, task.status t = "todo" ∨ task.status t = "in_progress") (task st))
    as (Ht1 & Ht2 & Ht3 & Ht4); [intros *; lia..|].
  destruct (limit_order_by_spec (λ a b, lessons.created_at b <=? lessons.created_at a))
    with (n := 3%nat) (rows := lessons st) as (Hl1 & Hl2 & Hl3 & Hl4); [intros *; lia..|].
  split_and!; try done.
  - eapply StronglySorted_impl; [apply story_by_priority_spec|done].
  - intros m Hm. destruct (Hs4 m Hm) as [?|[? Hr]]; [by left|right]. split; [done|].
    intros r Hin. by apply story_by_priority_spec, Hr.
  - eapply StronglySorted_impl; [|done]. cbn. intros; lia.
  - intros m Hm. destruct (Ht4 m Hm) as [?|[? Hr]]; [by left|right]. split; [done|].
    intros r Hin. specialize (Hr r Hin). cbn in Hr. lia.
  - eapply StronglySorted_impl; [|done]. cbn. intros; lia.
  - intros m Hm. destruct (Hl4 m Hm) as [?|[? Hr]]; [by left|right]. split; [done|].
    intros r Hin. specialize (Hr r Hin). cbn in Hr. lia.
Qed.

Lemma text_lt_spec a b : text_lt a b = true ↔ OrderedTypeEx.String_as_OT.lt a b.
Proof.
  unfold text_lt. rewrite <-OrderedTypeEx.String_as_OT.cmp_lt. unfold OrderedTypeEx.String_as_OT.cmp.
  destruct (String.compare a b); split; congruence.
Qed.

Lemma text_le_spec a b : text_le a b = true ↔ OrderedTypeEx.String_as_OT.lt a b ∨ a = b.
Proof.
  unfold text_le. rewrite <-OrderedTypeEx.String_as_OT.cmp_lt, <-OrderedTypeEx.String_as_OT.cmp_eq.
  unfold OrderedTypeEx.String_as_OT.cmp.
  destruct (String.compare a b); split; try tauto; try congruence.
  intros [?|?]; congruence.
Qed.

Lemma text_trichotomy a b : OrderedTypeEx.String_as_OT.lt a b ∨ a = b ∨ OrderedTypeEx.String_as_OT.lt b a.
Proof.
  rewrite <-!OrderedTypeEx.String_as_OT.cmp_lt, <-OrderedTypeEx.String_as_OT.cmp_eq.
  rewrite (OrderedTypeEx.String_as_OT.cmp_antisym b a).
  destruct (OrderedTypeEx.String_as_OT.cmp a b); cbn; tauto.
Qed.

Lemma settings_by_key_spec a b : Bun.settings_by_key a b = true ↔ key_before a b.
Proof.
  unfold Bun.settings_by_key, key_before.
  by rewrite orb_true_iff, andb_true_iff, bool_decide_eq_true, text_lt_spec, text_le_spec.
Qed.

Lemma key_before_total a b : key_before a b ∨ key_before b a.
Proof.
  unfold key_before.
  destruct (text_trichotomy (settings.category a) (settings.category b)) as [?|[E|?]];
    [tauto| |tauto].
  destruct (text_trichotomy (settings.key_name a) (settings.key_name b)) as [?|[?|?]];
    rewrite E; tauto.
Qed.

Lemma key_before_trans a b c : key_before a b → key_before b c → key_before a c.
Proof.
  unfold key_before.
  intros [H1|[E1 H1]] [H2|[E2 H2]].
  - left. by eapply OrderedTypeEx.String_as_OT.lt_trans.
  - left. by rewrite <-E2.
  - left. by rewrite E1.
  - right. split; [congruence|].
    destruct H1 as [H1|H1], H2 as [H2|H2].
    + left. by eapply OrderedTypeEx.String_as_OT.lt_trans.
    + left. by rewrite <-H2.
    + left. by rewrite H1.
    + right. congruence.
Qed.

(** X10.  The settings section of the SQLite report lists every setting once,
    sorted by category and then key in the byte order of the text, one line
    each under the heading. *)
Theorem settings_section_sorted st :
  ∃ rows,
    rows ≡ₚ settings st ∧
    StronglySorted key_before rows ∧
    Bun.settings_section st =
      match rows with
      | [] => []
      | _ =>
          "\n## ⚙️ Key Settings" ::
          ((λ s, "- " +:+ settings.category s +:+ "." +:+ settings.key_name s +:+ ": `" +:+
                 settings.value s +:+ "`") <$> rows)
      end.
Proof.
  exists (order_by Bun.settings_by_key (settings st)). split_and!.
  - apply order_by_Permutation.
  - eapply StronglySorted_impl; [apply settings_by_key_spec|].
    apply order_by_sorted.
    + intros a b. rewrite !settings_by_key_spec. apply key_before_total.
    + intros a b c. rewrite !settings_by_key_spec. apply key_before_trans.
  - unfold Bun.settings_section, Bun.section.
    destruct (order_by _ _); [done|]. by rewrite bind_singleton.
Qed.

(** ** Search *)


Lemma select_bounds term rows :
  Bun.select term rows ⊆ rows ∧
  (length (Bun.select term rows) ≤ 5)%nat ∧
  StronglySorted (λ a b, Bun.hit.created_at b ≤ Bun.hit.created_at a)
                 (Bun.select term rows).
Proof.
  unfold Bun.select.
  destruct (newest_five_spec
              (filter (λ r, Bun.matches term (Bun.hit.title r) (Bun.hit.description r)) rows))
    as (Hsub & Hlen & Hsorted & _).
  split_and!; try done.
  intros r Hr%Hsub. by apply list_elem_of_filter in Hr as [_ Hr].
Qed.

(** X12.  A search gives at most 20 results, whatever the query: at most 5 of
    each of stories, tasks, lessons and knowledge, in this order of the
    tables, each group newest first.  The report has one heading line and two
    lines per result. *)
Theorem search_bounds query st :
  (length (Bun.results query st) ≤ 20)%nat ∧
  length (Bun.response query (Bun.results query st)) =
    (1 + 2 * length (Bun.results query st))%nat ∧
  ∃ s t l k,
    Bun.results query st = s ++ t ++ l ++ k ∧
    (s ⊆ Bun.story_hit <$> story st ∧ t ⊆ Bun.task_hit <$> task st ∧
     l ⊆ Bun.lesson_hit <$> lessons st ∧ k ⊆ Bun.knowledge_hit <$> knowledge st) ∧
    Forall (λ part, (length part ≤ 5)%nat ∧
                    StronglySorted (λ a b, Bun.hit.created_at b ≤ Bun.hit.created_at a) part)
           [s; t; l; k].
Proof.
  unfold Bun.results.
  set (term := "%" +:+ toLowerCase query +:+ "%").
  destruct (select_bounds term (Bun.story_hit <$> story st)) as (Hs1 & Hs2 & Hs3).
  destruct (select_bounds term (Bun.task_hit <$> task st)) as (Ht1 & Ht2 & Ht3).
  destruct (select_bounds term (Bun.lesson_hit <$> lessons st)) as (Hl1 & Hl2 & Hl3).
  destruct (select_bounds term (Bun.knowledge_hit <$> knowledge st)) as (Hk1 & Hk2 & Hk3).
  split_and!.
  - rewrite !length_app. lia.
  - unfold Bun.response. cbn [length]. f_equal.
    generalize (Bun.select term (Bun.story_hit <$> story st) ++
                Bun.select term (Bun.task_hit <$> task st) ++
                Bun.select term (Bun.lesson_hit <$> lessons st) ++
                Bun.select term (Bun.knowledge_hit <$> knowledge st)).
    intros rs. induction rs as [|r rs IH]; [done|].
    rewrite bind_cons, length_app, IH. cbn [length Bun.result_lines]. lia.
  - eexists _, _, _, _. split; [reflexivity|]. split; [done|].
    rewrite !Forall_cons. by split_and!.
Qed.

Lemma lower_upper_char c : lower_char (upper_char c) = lower_char c.
Proof. by destruct c as [[] [] [] [] [] [] [] []]. Qed.

Lemma lower_upper s : toLowerCase (toUpperCase s) = toLowerCase s.
Proof. induction s as [|c s IH]; [done|]. cbn. by rewrite lower_upper_char, IH. Qed.

(** X13.  Search ignores ASCII letter case, of the query and of the stored
    text. *)
Theorem search_ignores_case query st :
  Bun.results (toUpperCase query) st = Bun.results query st ∧
  Bun.results (toLowerCase query) st = Bun.results query st ∧
  ∀ term title description,
    Bun.matches term (toUpperCase title) (toUpperCase description) =
    Bun.matches term title description.
Proof.
  split_and!.
  - unfold Bun.results. by rewrite lower_upper.
  - unfold Bun.results. by rewrite toLowerCase_idemp.
  - intros term title description. unfold Bun.matches, LOWER.
    change (map_chars lower_char) with toLowerCase. by rewrite !lower_upper.
Qed.

Lemma like_two_percent s : like "%%" s = true.
Proof. apply like_any. exists "", s. split; [done|]. apply like_percent. Qed.

Lemma like_three_percent s : like "%%%" s = true.
Proof. apply like_any. exists "", s. split; [done|]. apply like_two_percent. Qed.

Lemma filter_all {A} (P : A → Prop) `{!∀ x, Decision (P x)} (l : list A) :
  (∀ x, P x) → filter P l = l.
Proof.
  intros HP. induction l as [|x l IH]; [done|].
  by rewrite filter_cons, decide_True, IH.
Qed.

(** X14.  The empty query, and the query that is a percent sign, match every
    row: the search gives the five newest rows of each table. *)
Theorem search_empty_query_finds_all st :
  let newest :=
    Bun.newest_five (Bun.story_hit <$> story st) ++
    Bun.newest_five (Bun.task_hit <$> task st) ++
    Bun.newest_five (Bun.lesson_hit <$> lessons st) ++
    Bun.newest_five (Bun.knowledge_hit <$> knowledge st) in
  Bun.results "" st = newest ∧ Bun.results "%" st = newest.
Proof.
  cbv zeta. unfold Bun.results, Bun.select, Bun.matches. split.
  - change ("%" +:+ toLowerCase "" +:+ "%") with "%%".
    rewrite !filter_all; [done|..]; intros r; by rewrite like_two_percent.
  - change ("%" +:+ toLowerCase "%" +:+ "%") with "%%%".
    rewrite !filter_all; [done|..]; intros r; by rewrite like_three_percent.
Qed.

(** ** Every store the servers reach *)

Lemma after_invariant (I : db → Prop) :
  (∀ st c, I st → I (Bun.step st c)) → ∀ calls st, I st → I (Bun.after calls st).
Proof.
  intros Hstep calls. induction calls as [|c calls IH]; intros st H; [done|].
  cbn. apply IH, Hstep, H.
Qed.

Lemma run_invariant (I : db → Prop) st r text :
  I st → (∀ st' n, r = Ok (st', n) → I st') → I (Bun.run st r text).1.
Proof. intros H0 H. destruct r as [[st' n]|msg]; cbn; [by eapply H|done]. Qed.

Lemma Forall_filter_2 {A} (P Q : A → Prop) `{!∀ x, Decision (Q x)} (l : list A) :
  Forall P l → Forall P (filter Q l).
Proof.
  rewrite !Forall_forall. intros Hl x Hx%list_elem_of_filter. apply Hl, Hx.
Qed.

Lemma step_as_inserted st c : as_inserted st → as_inserted (Bun.step st c).
Proof.
  intros Hst. unfold Bun.step, Bun.handleCallTool.
  repeat case_decide; try done; apply (run_invariant as_inserted); try done;
    intros st' n Hr.
  - unfold Bun.replace_settings in Hr. open_statement Hr.
    destruct Hst as (Ha & Hb & Hc & Hd & He & Hf & Hg). split_and!; try done. cbn.
    apply Forall_app. split; [by apply Forall_filter_2|by repeat constructor].
  - unfold Bun.replace_architecture in Hr. open_statement Hr.
    destruct Hst as (Ha & Hb & Hc & Hd & He & Hf & Hg). split_and!; try done. cbn.
    apply Forall_app. split; [done|by repeat constructor].
  - unfold Bun.replace_deployment in Hr. open_statement Hr.
    destruct Hst as (Ha & Hb & Hc & Hd & He & Hf & Hg). split_and!; try done. cbn.
    apply Forall_app. split; [done|by repeat constructor].
  - unfold Bun.insert_story in Hr. open_statement Hr.
    destruct Hst as (Ha & Hb & Hc & Hd & He & Hf & Hg). split_and!; try done. cbn.
    apply Forall_app. split; [done|by repeat constructor].
  - unfold Bun.insert_task in Hr. open_statement Hr.
    destruct Hst as (Ha & Hb & Hc & Hd & He & Hf & Hg). split_and!; try done. cbn.
    apply Forall_app. split; [done|by repeat constructor].
  - unfold Bun.insert_defect in Hr. open_statement Hr.
    destruct Hst as (Ha & Hb & Hc & Hd & He & Hf & Hg). split_and!; try done. cbn.
    apply Forall_app. split; [done|by repeat constructor].
  - unfold Bun.insert_lessons in Hr. open_statement Hr.
    destruct Hst as (Ha & Hb & Hc & Hd & He & Hf & Hg). by split_and!.
  - unfold Bun.insert_knowledge in Hr. open_statement Hr.
    destruct Hst as (Ha & Hb & Hc & Hd & He & Hf & Hg). split_and!; try done. cbn.
    apply Forall_app. split; [done|by repeat constructor].
Qed.

Lemma filter_Forall {A} (P : A → Prop) `{!∀ x, Decision (P x)} (l : list A) :
  Forall P l → filter P l = l.
Proof.
  induction 1 as [|x l Hx _ IH]; [done|].
  by rewrite filter_cons, decide_True, IH.
Qed.

(** X15.  No tool of the SQLite server updates a row.  In every database
    reached from a fresh one, every story is active, every task todo and every
    defect open, none has a completion or resolution time, and updated_at is
    created_at; so the counts of the status block are the sizes of the
    tables. *)
Theorem rows_stay_as_inserted calls :
  let st := Bun.after calls fresh in
  as_inserted st ∧
  active_stories (project_status st) = length (story st) ∧
  pending_tasks (project_status st) = length (task st) ∧
  open_defects (project_status st) = length (defect st).
Proof.
  cbv zeta.
  assert (as_inserted (Bun.after calls fresh)) as H.
  { apply after_invariant; [apply step_as_inserted|]. by repeat split. }
  split; [done|].
  destruct H as (_ & _ & _ & Hs & Ht & Hd & _).
  unfold project_status. cbn. split_and!; f_equal; apply filter_Forall.
  - eapply Forall_impl; [done|]. cbn. tauto.
  - eapply Forall_impl; [done|]. cbn. intros ? (-> & _). by left.
  - eapply Forall_impl; [done|]. cbn. tauto.
Qed.

Lemma step_keys_unique st c :
  NoDup (setting_key <$> settings st) → NoDup (setting_key <$> settings (Bun.step st c)).
Proof.
  intros Hst. unfold Bun.step, Bun.handleCallTool.
  repeat case_decide; try done; apply (run_invariant (λ st, NoDup (setting_key <$> settings st)));
    try done; intros st' n Hr.
  - unfold Bun.replace_settings in Hr. open_statement Hr. cbn.
    rewrite fmap_app. apply NoDup_app. split_and!.
    + apply (sublist_NoDup _ (setting_key <$> settings st));
        [done | apply sublist_fmap_2, sublist_filter].
    + intros key Hk ->%list_elem_of_singleton.
      apply list_elem_of_fmap in Hk as (row & E & Hs0%list_elem_of_filter).
      destruct Hs0 as [Hne _]. apply Hne. unfold setting_key in E. cbn in E.
      by injection E as <- <-.
    + apply NoDup_singleton.
  - unfold Bun.replace_architecture in Hr. by open_statement Hr.
  - unfold Bun.replace_deployment in Hr. by open_statement Hr.
  - unfold Bun.insert_story in Hr. by open_statement Hr.
  - unfold Bun.insert_task in Hr. by open_statement Hr.
  - unfold Bun.insert_defect in Hr. by open_statement Hr.
  - unfold Bun.insert_lessons in Hr. by open_statement Hr.
  - unfold Bun.insert_knowledge in Hr. by open_statement Hr.
Qed.

Lemma node_step_keys_unique d c :
  NoDup (object_key <$> Node.settings d) →
  NoDup (object_key <$> Node.settings (Node.step d c)).
Proof.
  intros Hd. unfold Node.step, Node.handleCallTool.
  repeat case_decide; try done. unfold Node.learnSetting. cbn.
  rewrite fmap_app. apply NoDup_app. split_and!.
  - apply (sublist_NoDup _ (object_key <$> Node.settings d));
      [done | apply sublist_fmap_2, sublist_filter].
  - intros key Hk ->%list_elem_of_singleton.
    apply list_elem_of_fmap in Hk as (row & E & Hs0%list_elem_of_filter).
    destruct Hs0 as [Hne _]. apply Hne. unfold object_key in E. cbn in E.
    by injection E as <- <-.
  - apply NoDup_singleton.
Qed.

(** X16.  On either server, in every store reached from a fresh one, no two
    settings have the same (category, key). *)
Theorem setting_keys_unique calls node_calls :
  NoDup (setting_key <$> settings (Bun.after calls fresh)) ∧
  NoDup (object_key <$> Node.settings (Node.after node_calls Node.fresh)).
Proof.
  split.
  - apply (after_invariant (λ st, NoDup (setting_key <$> settings st)));
      [apply step_keys_unique|constructor].
  - assert (∀ d, NoDup (object_key <$> Node.settings d) →
                 NoDup (object_key <$> Node.settings (Node.after node_calls d))) as H.
    { induction node_calls as [|c cs IH]; intros d Hd; [done|].
      cbn. apply IH, node_step_keys_unique, Hd. }
    apply H. constructor.
Qed.

Lemma or_null_truthy x : or_null x ≠ Some "".
Proof. by destruct x as [[|? ?]|]. Qed.

Lemma num_or_null_truthy x : num_or_null x ≠ Some 0.
Proof. by destruct x as [[| |]|]. Qed.

Lemma or_default_truthy x d : d ≠ "" → or_default x d ≠ "".
Proof. by destruct x as [[|? ?]|]. Qed.

Lemma num_or_default_truthy x d : d ≠ 0 → num_or_default x d ≠ 0.
Proof. by destruct x as [[| |]|]. Qed.

Ltac new_row_truthy :=
  apply Forall_app; split;
  [ first [ done | by apply Forall_filter_2 ]
  | rewrite Forall_singleton; cbn; split_and?;
    first [ apply or_null_truthy | apply num_or_null_truthy
          | by apply or_default_truthy | by apply num_or_default_truthy ] ].

Lemma step_no_falsy st c : no_falsy_stored st → no_falsy_stored (Bun.step st c).
Proof.
  intros (Ha & Hb & Hc & Hd & He & Hf & Hg & Hh). unfold Bun.step, Bun.handleCallTool.
  repeat case_decide; try done; apply (run_invariant no_falsy_stored); try done;
    intros st' n Hr.
  - unfold Bun.replace_settings in Hr. open_statement Hr.
    split_and!; try done. cbn. new_row_truthy.
  - unfold Bun.replace_architecture in Hr. open_statement Hr.
    split_and!; try done. cbn. new_row_truthy.
  - unfold Bun.replace_deployment in Hr. open_statement Hr.
    split_and!; try done. cbn. new_row_truthy.
  - unfold Bun.insert_story in Hr. open_statement Hr.
    split_and!; try done. cbn. new_row_truthy.
  - unfold Bun.insert_task in Hr. open_statement Hr.
    split_and!; try done. cbn. new_row_truthy.
  - unfold Bun.insert_defect in Hr. open_statement Hr.
    split_and!; try done. cbn. new_row_truthy.
  - unfold Bun.insert_lessons in Hr. open_statement Hr.
    split_and!; try done. cbn. new_row_truthy.
  - unfold Bun.insert_knowledge in Hr. open_statement Hr.
    split_and!; try done. cbn. new_row_truthy.
Qed.

(** X17.  The server never stores a falsy optional argument.  In every database
    reached from a fresh one no optional column holds the empty text or the
    number 0 (they are stored as NULL), no story has priority 0, and severity,
    impact_level and the category of a knowledge entry are never empty (the
    default takes their place). *)
Theorem falsy_arguments_never_stored calls : no_falsy_stored (Bun.after calls fresh).
Proof.
  apply after_invariant; [apply step_no_falsy|]. by repeat split.
Qed.

Lemma node_step_frame d c :
  let d' := Node.step d c in
  Node.architecture d' = Node.architecture d ∧ Node.deployment d' = Node.deployment d ∧
  Node.story d' = Node.story d ∧ Node.task d' = Node.task d ∧
  Node.defect d' = Node.defect d ∧ Node.lessons d' = Node.lessons d ∧
  Node.knowledge d' = Node.knowledge d ∧
  (length (Node.settings d') ≤ S (length (Node.settings d)))%nat.
Proof.
  cbv zeta. unfold Node.step, Node.handleCallTool.
  repeat case_decide; cbn [fst]; try (split_and!; (done || lia)).
  unfold Node.learnSetting. cbn. split_and!; try done.
  rewrite length_app. cbn. pose proof (length_filter
    (λ s, ¬ (Node.setting.category s = str (Node.arguments c) "category" ∧
             Node.setting.key_name s = str (Node.arguments c) "key")) (Node.settings d)).
  lia.
Qed.

(** X20.  The JSON server stores settings only.  In every store reached from a
    fresh one the other seven arrays are empty, there are at most as many
    settings as there were calls, and the status block reports the number of
    settings, 0 architecture components and 0 active stories. *)
Theorem node_reports_only_settings calls :
  let d := Node.after calls Node.fresh in
  (Node.architecture d = [] ∧ Node.deployment d = [] ∧ Node.story d = [] ∧
   Node.task d = [] ∧ Node.defect d = [] ∧ Node.lessons d = [] ∧ Node.knowledge d = []) ∧
  (length (Node.settings d) ≤ length calls)%nat ∧
  Node.status_summary d =
    [ "## 🎯 Project Status";
      "- Settings Learned: " +:+ show (Z.of_nat (length (Node.settings d)));
      "- Architecture Components: 0";
      "- Active Stories: 0" ].
Proof.
  cbv zeta.
  assert (∀ d0,
    let d := Node.after calls d0 in
    Node.architecture d = Node.architecture d0 ∧ Node.deployment d = Node.deployment d0 ∧
    Node.story d = Node.story d0 ∧ Node.task d = Node.task d0 ∧
    Node.defect d = Node.defect d0 ∧ Node.lessons d = Node.lessons d0 ∧
    Node.knowledge d = Node.knowledge d0 ∧
    (length (Node.settings d) ≤ length calls + length (Node.settings d0))%nat) as H.
  { induction calls as [|c calls IH]; intros d0; cbv zeta;
      [cbn; split_and!; (done || lia)|].
    change (Node.after (c :: calls) d0) with (Node.after calls (Node.step d0 c)).
    cbv zeta in IH. destruct (IH (Node.step d0 c)) as (-> & -> & -> & -> & -> & -> & -> & Hl).
    destruct (node_step_frame d0 c) as (-> & -> & -> & -> & -> & -> & -> & Hs).
    split_and!; try done. cbn [length]. lia. }
  destruct (H Node.fresh) as (Ha & Hb & Hc & Hd & He & Hf & Hg & Hl).
  cbn in Ha, Hb, Hc, Hd, He, Hf, Hg, Hl.
  split_and!; try done; [lia|].
  unfold Node.status_summary. by rewrite Ha, Hc.
Qed.

(** ** The command line *)

Lemma str_cons k v l name :
  str (Bag (list_to_map ((k, v) :: l)) ∅) name =
  if decide (k = name) then Some v else str (Bag (list_to_map l) ∅) name.
Proof.
  unfold str. cbn. case_decide as E.
  - subst. by rewrite lookup_insert_eq.
  - by rewrite lookup_insert_ne.
Qed.

Lemma str_property k x l name :
  str (Bag (list_to_map (Cli.property k x ++ l)) ∅) name =
  match x with
  | Some v => if decide (k = name) then Some v else str (Bag (list_to_map l) ∅) name
  | None => str (Bag (list_to_map l) ∅) name
  end.
Proof. destruct x; [apply str_cons|done]. Qed.

Lemma str_nil name : str (Bag (list_to_map []) ∅) name = None.
Proof. done. Qed.

(** X18.  What `ccmem learn` sends.  It prints a usage line and sends nothing
    exactly when the type is neither setting nor architecture or fewer than
    three arguments follow.  Otherwise the request carries the first three
    arguments under the names the tool requires, and the SQLite server's
    handler returns; for a setting the written value can be read back, and
    the JSON server accepts it too, while it rejects the architecture tool
    as unknown. *)
Theorem cli_learn_accepted type args now clk st d :
  match Cli.learn type args with
  | Cli.Print _ =>
      type ∉ [Some "setting"; Some "architecture"] ∨ (length args < 3)%nat
  | Cli.Send tool bag =>
      (∃ st' text, Bun.handleCallTool now tool bag st = (st', Returned text)) ∧
      ∃ a b c rest,
        args = a :: b :: c :: rest ∧
        (type = Some "setting" ∧ tool = "ccmem_learn_setting" ∧
         str bag "category" = Some a ∧ str bag "key" = Some b ∧
         str bag "value" = Some c ∧ str bag "description" = or_null (args !! 3%nat) ∧
         setting_value a b (Bun.handleCallTool now tool bag st).1 = Some c ∧
         (∃ text, (Node.handleCallTool clk tool bag d).2 = Returned text)
         ∨
         type = Some "architecture" ∧ tool = "ccmem_learn_architecture" ∧
         str bag "component" = Some a ∧ str bag "description" = Some b ∧
         str bag "tech_stack" = Some c ∧
         Node.handleCallTool clk tool bag d =
           (d, Thrown "Unknown tool: ccmem_learn_architecture"))
  end.
Proof.
  unfold Cli.learn.
  destruct (decide (type = Some "setting")) as [->|Hs];
    [|destruct (decide (type = Some "architecture")) as [->|Ha]].
  - case_decide as Hl; [by right|].
    destruct args as [|a [|b [|c rest]]]; cbn in Hl; try lia. clear Hl.
    change ((a :: b :: c :: rest) !! 0%nat) with (Some a).
    change ((a :: b :: c :: rest) !! 1%nat) with (Some b).
    change ((a :: b :: c :: rest) !! 2%nat) with (Some c).
    change ((a :: b :: c :: rest) !! 3%nat) with (rest !! 0%nat).
    set (bag := Bag _ _).
    assert (str bag "category" = Some a ∧ str bag "key" = Some b ∧
            str bag "value" = Some c ∧ str bag "description" = or_null (rest !! 0%nat))
      as (Hc & Hk & Hv & Hd).
    { unfold bag. rewrite !str_property.
      destruct (or_null (rest !! 0%nat)); by rewrite ?app_nil_r, ?str_property, ?str_nil. }
    split.
    + unfold Bun.handleCallTool. rewrite decide_True by done.
      rewrite (bun_learnSetting_written now bag st a b c) by done. by eexists _, _.
    + exists a, b, c, rest. split; [done|]. left. split_and!; try done.
      * unfold Bun.handleCallTool. rewrite decide_True by done.
        by apply setting_value_written.
      * unfold Node.handleCallTool. rewrite decide_True by done. by eexists.
  - case_decide as Hl; [by right|].
    destruct args as [|a [|b [|c rest]]]; cbn in Hl; try lia. clear Hl.
    change ((a :: b :: c :: rest) !! 0%nat) with (Some a).
    change ((a :: b :: c :: rest) !! 1%nat) with (Some b).
    change ((a :: b :: c :: rest) !! 2%nat) with (Some c).
    set (bag := Bag _ _).
    assert (str bag "component" = Some a ∧ str bag "description" = Some b ∧
            str bag "tech_stack" = Some c) as (Hc & Hk & Hv).
    { unfold bag. by rewrite !str_property, ?app_nil_r, ?str_property. }
    split.
    + unfold Bun.handleCallTool. rewrite decide_False by done. rewrite decide_True by done.
      unfold Bun.learnArchitecture, Bun.replace_architecture. rewrite Hc, Hk, Hv. cbn.
      by eexists _, _.
    + exists a, b, c, rest. split; [done|]. right. split_and!; done.
  - left. rewrite !elem_of_cons, elem_of_nil. by intros [?|[?|[]]].
Qed.

(** X19.  What `ccmem status`, `ccmem search` and `ccmem context` send.  Without
    the database file none of them sends a request.  With it, status asks for
    the context with focus all and context for the focus given, all when none
    is given, and the SQLite handler answers with that report; search sends
    nothing for a query that is absent or empty, and for any other query the
    handler returns. *)
Theorem cli_read_commands (initialized : bool) (query focus : option string) now st :
  let sent c :=
    match c with
    | Cli.Send tool bag => Some (Bun.handleCallTool now tool bag st)
    | Cli.Print _ => None
    end in
  if initialized then
    sent (Cli.status true) = Some (st, Returned (join "\n" (Bun.context "all" st))) ∧
    sent (Cli.context true focus) =
      Some (st, Returned (join "\n" (Bun.context (default "all" focus) st))) ∧
    match or_null query with
    | None => sent (Cli.search true query) = None
    | Some _ => ∃ text, sent (Cli.search true query) = Some (st, Returned text)
    end
  else
    sent (Cli.status false) = None ∧ sent (Cli.search false query) = None ∧
    sent (Cli.context false focus) = None.
Proof.
  cbv zeta. destruct initialized; [|done]. split_and!.
  - done.
  - unfold Cli.context, Bun.handleCallTool. cbn [decide].
    repeat (rewrite decide_False by done). rewrite decide_True by done.
    unfold Bun.getContext, str. cbn [str_props].
    change (list_to_map [("focus", default "all" focus)])
      with (<[ "focus" := default "all" focus ]> (∅ : gmap string string)).
    by rewrite lookup_insert_eq.
  - destruct query as [[|c q]|]; [done| |done].
    unfold Cli.search. cbn [or_null]. unfold Bun.handleCallTool.
    repeat (rewrite decide_False by done). rewrite decide_True by done.
    unfold Bun.search, str. cbn [str_props].
    change (list_to_map [("query", String c q)])
      with (<[ "query" := String c q ]> (∅ : gmap string string)).
    rewrite lookup_insert_eq. destruct (_ && _); [by eexists|].
    destruct (Bun.results _ _); by eexists.
Qed.
